(* ===== verification/_CoqProject ===== *)
-Q . S2P
Prelude.v
Dates.v
Schema.v
Sequencer.v
Users.v
Auth.v
System.v
Views.v
Reports.v
Exports.v
