(* ===== verification/Prelude.v ===== *)
(** * Verification of "Registro de pontos", an employee time clock

    The program (Python, Flask, SQLite) is three files under src/:
    - [src/database.py]: the SQLite schema (tables [usuarios] and [pontos])
      and [init_db], which bootstraps the administrator account;
    - [src/auth.py]: the [User] class ([User.get], [User.get_by_login],
      [User.check_password]) and Flask-Login's [load_user];
    - [src/routes.py]: the HTTP handlers.  Two write: [register_employee]
      (an administrator creates a user) and [register_punch] (an employee
      records the next of the four daily punches).  The others read:
      [login], [employee_dashboard], [admin_dashboard], [punch_history],
      [reports], [export_history], [export_reports], [print_report].

    A request goes through Flask-Login (the session holds a user id that
    [User.get] turns into the current user), checks the profile, then
    reads or writes the two tables.  [register_punch] runs the "next
    punch" loop on the day's punches before it inserts; the report
    handlers convert their date bounds, run the aggregation queries and
    group the rows by date; the export handlers turn the rows into cells.

    ** Layout: one file per component
    - [Prelude] (this file): the [result] type of Python exceptions with
      its bind notation (scope [tc_scope]) and [result_map]; the Python
      string functions the code calls ([str.strip], [str.split], [in],
      [re.sub] on digits, truthiness); SQLite's BINARY text order,
      [BETWEEN], ORDER BY (a stable merge sort on a list of text keys,
      with its sortedness and permutation lemmas), COUNT(DISTINCT), LIMIT;
      the hint databases [timeclock] and [timeclock_rw].
    - [Dates]: dates, [strftime] for the formats the code uses and
      [convert_date_for_db]; the text-order facts of the two date forms.
    - [Schema]: the tables as records of their columns, the CHECK
      constraints as inductive types, the database state (each table in
      rowid order and the AUTOINCREMENT counters), the INSERTs with the
      UNIQUE constraints, [init_db], the reads of [auth.py], the responses.
    - [Sequencer]: the loop over [punch_types] and [register_punch], split
      into its read ([punch_read]) and its write ([punch_write]); the
      ledger invariant.
    - [Users]: [register_employee] with every guard; the users invariant.
    - [Auth]: the [login] handler.
    - [System]: the server as a step relation over the writing handlers
      and [init_db], its reachable states and their invariant; [cstep],
      where [register_punch] requests read and write at different times.
    - [Views]: [employee_dashboard], [admin_dashboard], [punch_history].
    - [Reports]: the summary and detailed queries, the grouping by date,
      the [reports] handler, the frequency of the exports.
    - [Exports]: the cells of [export_history] and [export_reports], the
      date reformatting of the detailed exports, and [print_report].

    ** What the theorems show
    - The sequencer returns the type after the recorded prefix, refuses a
      fifth punch without writing, and agrees with the dashboard
      ([Sequencer], [Views]).
    - Every reachable state keeps unique ids, CPFs and logins, 11-digit
      CPFs, per employee and day the recorded types as a prefix of the
      canonical order, punches owned by employees, and dates in the stored
      form ([System.reachable_db_wf]); consequences for the dashboards.
    - Interleaved punch requests break that invariant
      ([System.concurrent_clock_in_duplicates]): the table has no UNIQUE
      constraint and the read and the write are not atomic.
    - Dates are stored as DD-MM-YYYY while the report bounds are
      converted to YYYY-MM-DD, and SQLite compares them as text.  So the
      report page with its default bounds counts no punch
      ([Reports.default_report_counts_nothing]).  The same holds for any
      bounds that are valid dates of one century, whether typed,
      sent by a date input or defaulted ([Reports.report_counts_nothing]).
      Bounds spanning a century change (e.g. 1999 to 2000) can select
      punches, but only by the digits of their day.  The ISO form would
      order correctly ([Dates.fmt_iso_order]).  The stored form orders by
      day of the month, so every history page in a reachable state lists
      punches by non-increasing day ([Views.history_by_day_of_month]).
    - Error paths: the duplicate check of [register_employee], the dead
      "Erro interno" branch of [login], the [IndexError] of
      [convert_date_for_db], the unknown employee of [print_report].
    - Round trips: date conversion, grouping by date, registration then
      login.

    ** Modelling choices
    - Strings are Stdlib [string] (bytes).  SQLite compares TEXT with the
      BINARY collation, byte-wise, which is [String.compare].  The [DATE]
      and [TIME] columns have NUMERIC affinity, but the values the code
      stores ("01-03-2024", "08:00:00") are not numeric literals, so SQLite
      keeps and compares them as TEXT.
    - A table is the list of its rows in rowid order; [fetchone] is the
      head of the filtered list.  ORDER BY is a stable merge sort; SQL
      leaves ties unspecified, so theorems on ordered results use only
      sortedness and permutation, true of every order SQL allows.
    - The clock is an input: [get_brasilia_date()]/[get_brasilia_time()]
      are a valid date and a time, printed by [strftime].  Years are
      1000..9999, the range [%Y] prints with four digits.
    - werkzeug's password hashing is a section parameter; the login
      theorems assume only that checking a hash of [p] accepts exactly [p].
    - [employee_id] request arguments are the number SQLite compares with
      the INTEGER [id] column.  Request fields are taken as present (a
      missing form field is a 400 error in Flask).
    - The frequency [round(d / 30 * 100, 1)] is computed exactly in tenths;
      its exact value [100 d / 3] tenths is never half-way between two
      tenths, so the floating-point rounding gives the same result
      ([Reports.frequency_rounds_nearest] shows it is the nearest tenth).
    - No function needs fuel: every loop is structural on a list.

    ** Not modelled
    - The byte streams of the export adapters ([export_csv],
      [export_excel], [export_pdf_*]: pandas, openpyxl, reportlab) and the
      HTML templates: the model stops at the rows handed to them.
    - [index] and [logout] (redirects only), Flask-Login's cookie
      handling, [get_db]/[close_db] (connection plumbing). *)

From Stdlib Require Import String Ascii Lia ZifyNat.
From stdpp Require Import base list strings sorting.

Declare Scope tc_scope.
Delimit Scope tc_scope with tc.
Open Scope tc_scope.

(** ** Python exceptions as values *)

Inductive py_exn :=
  | IndexError       (** list index out of range *)
  | IntegrityError.  (** an SQLite constraint (UNIQUE) was violated *)

Inductive result (A : Type) : Type :=
  | Ok (a : A)
  | Raise (e : py_exn).
Arguments Ok {A} a.
Arguments Raise {A} e.

Definition result_bind {A B} (r : result A) (k : A -> result B) : result B :=
  match r with Ok a => k a | Raise e => Raise e end.

Notation "x <- r ;; k" := (result_bind r (fun x => k))
  (at level 60, r at next level, right associativity) : tc_scope.

(** A loop over a list whose body may raise: the first exception stops it. *)
Fixpoint result_map {A B} (f : A -> result B) (l : list A) : result (list B) :=
  match l with
  | [] => Ok []
  | x :: r => y <- f x ;; ys <- result_map f r ;; Ok (y :: ys)
  end.

(** Python list indexing [l[i]], which raises [IndexError] out of range. *)
Definition py_index {A} (l : list A) (i : nat) : result A :=
  match l !! i with Some a => Ok a | None => Raise IndexError end.

(** ** Python string functions *)

(** [str.isspace] on one byte: Python's whitespace among ASCII codes is
    9..13 (\t \n \v \f \r), 28..31 (separators) and 32 (space). *)
Definition is_space (c : ascii) : bool :=
  let n := nat_of_ascii c in
  ((9 <=? n) && (n <=? 13)) || ((28 <=? n) && (n <=? 32)).

Fixpoint lstrip (s : string) : string :=
  match s with
  | EmptyString => EmptyString
  | String c r => if is_space c then lstrip r else s
  end.

Definition rstrip (s : string) : string :=
  string_of_list_ascii (rev (list_ascii_of_string (lstrip
    (string_of_list_ascii (rev (list_ascii_of_string s)))))).

(** [s.strip()] *)
Definition py_strip (s : string) : string := rstrip (lstrip s).

Definition is_digit (c : ascii) : bool :=
  let n := nat_of_ascii c in (48 <=? n) && (n <=? 57).

(** [re.sub(r'[^0-9]', '', s)]: keep the ASCII digits. *)
Fixpoint keep_digits (s : string) : string :=
  match s with
  | EmptyString => EmptyString
  | String c r => if is_digit c then String c (keep_digits r) else keep_digits r
  end.

(** [s.split(sep)] for a one-character separator. *)
Fixpoint py_split (sep : ascii) (s : string) : list string :=
  match s with
  | EmptyString => [EmptyString]
  | String c r =>
      let parts := py_split sep r in
      if decide (c = sep) then EmptyString :: parts
      else match parts with
           | p :: ps => String c p :: ps
           | [] => [String c EmptyString]
           end
  end.

(** [c in s] for a one-character [c]. *)
Fixpoint py_contains (c : ascii) (s : string) : bool :=
  match s with
  | EmptyString => false
  | String d r => if decide (d = c) then true else py_contains c r
  end.

(** Python truthiness of a string. *)
Definition py_truthy (s : string) : bool :=
  match s with EmptyString => false | _ => true end.

(** ** SQLite TEXT order (BINARY collation) *)

Definition sql_le (a b : string) : bool :=
  match String.compare a b with Gt => false | _ => true end.

(** [x BETWEEN lo AND hi] *)
Definition sql_between (x lo hi : string) : bool := sql_le lo x && sql_le x hi.

(** Lexicographic order on the list of ORDER BY keys of a row. *)
Fixpoint keys_le (k1 k2 : list string) : bool :=
  match k1, k2 with
  | [], _ => true
  | _ :: _, [] => false
  | a :: r1, b :: r2 =>
      match String.compare a b with
      | Lt => true
      | Gt => false
      | Eq => keys_le r1 r2
      end
  end.

(** The order of [ORDER BY k1, k2, ...] on rows with keys [key], and
    its [DESC] version. *)
Definition key_rel {A} (key : A -> list string) : relation A :=
  fun x y => keys_le (key x) (key y) = true.
Definition key_rel_desc {A} (key : A -> list string) : relation A :=
  fun x y => keys_le (key y) (key x) = true.

#[export] Instance key_rel_dec {A} (key : A -> list string) : RelDecision (key_rel key).
Proof. intros x y. unfold key_rel. apply _. Defined.
#[export] Instance key_rel_desc_dec {A} (key : A -> list string) :
  RelDecision (key_rel_desc key).
Proof. intros x y. unfold key_rel_desc. apply _. Defined.

Definition order_by {A} (key : A -> list string) (l : list A) : list A :=
  merge_sort (key_rel key) l.
Definition order_by_desc {A} (key : A -> list string) (l : list A) : list A :=
  merge_sort (key_rel_desc key) l.

(** [COUNT(DISTINCT e)] *)
Definition count_distinct {A} `{EqDecision A} (l : list A) : nat :=
  length (remove_dups l).

(** [LIMIT n] *)
Definition sql_limit {A} (n : nat) (l : list A) : list A := take n l.

Create HintDb timeclock discriminated.
Create Rewrite HintDb timeclock_rw.

(** ** Lemmas on the SQL text order *)

Lemma ascii_compare_cases (a b : ascii) :
  (Ascii.compare a b = Eq /\ a = b) \/
  (Ascii.compare a b = Lt /\ Ascii.compare b a = Gt /\
     (N_of_ascii a < N_of_ascii b)%N) \/
  (Ascii.compare a b = Gt /\ Ascii.compare b a = Lt /\
     (N_of_ascii b < N_of_ascii a)%N).
Proof.
  unfold Ascii.compare.
  destruct (N.compare_spec (N_of_ascii a) (N_of_ascii b)) as [H|H|H].
  - left. split; [done|].
    by rewrite <- (ascii_N_embedding a), <- (ascii_N_embedding b), H.
  - right; left. rewrite (proj2 (N.compare_gt_iff _ _)); [done|lia].
  - right; right. rewrite (proj2 (N.compare_lt_iff _ _)); [done|lia].
Qed.

Lemma string_compare_refl (s : string) : String.compare s s = Eq.
Proof.
  induction s as [|c s IH]; simpl; [done|].
  unfold Ascii.compare. by rewrite N.compare_refl.
Qed.

Lemma string_compare_Eq (a b : string) : String.compare a b = Eq <-> a = b.
Proof.
  split; [apply String.compare_eq_iff|intros ->; apply string_compare_refl].
Qed.

Lemma string_compare_Gt_Lt (a b : string) :
  String.compare a b = Gt <-> String.compare b a = Lt.
Proof. rewrite String.compare_antisym. by destruct (String.compare b a). Qed.

Lemma string_compare_trans_Lt (a b c : string) :
  String.compare a b = Lt -> String.compare b c = Lt -> String.compare a c = Lt.
Proof.
  revert b c. induction a as [|x a IH]; intros [|y b] [|z c]; simpl;
    try done.
  destruct (ascii_compare_cases x y) as [[-> ->]|[[-> [_ H1]]|[-> [_ H1]]]];
  destruct (ascii_compare_cases y z) as [[-> ->]|[[-> [_ H2]]|[-> [_ H2]]]];
  try done; try (by apply IH);
  destruct (ascii_compare_cases x z) as [[-> ->]|[[-> _]|[-> [_ H3]]]];
  try done; lia.
Qed.

Lemma keys_le_refl (k : list string) : keys_le k k = true.
Proof. induction k; simpl; [done|]. by rewrite string_compare_refl. Qed.

Lemma keys_le_total (k1 k2 : list string) :
  keys_le k1 k2 = true \/ keys_le k2 k1 = true.
Proof.
  revert k2. induction k1 as [|a r1 IH]; intros [|b r2]; simpl; auto.
  rewrite (String.compare_antisym b a).
  destruct (String.compare a b); simpl; auto.
Qed.

Lemma keys_le_trans (k1 k2 k3 : list string) :
  keys_le k1 k2 = true -> keys_le k2 k3 = true -> keys_le k1 k3 = true.
Proof.
  revert k2 k3. induction k1 as [|a r1 IH]; intros [|b r2] [|c r3]; simpl;
    try done.
  destruct (String.compare a b) eqn:Hab; try done;
  destruct (String.compare b c) eqn:Hbc; try done.
  - apply string_compare_Eq in Hab, Hbc. subst. rewrite string_compare_refl. apply IH.
  - apply string_compare_Eq in Hab. subst. by rewrite Hbc.
  - apply string_compare_Eq in Hbc. subst. by rewrite Hab.
  - by rewrite (string_compare_trans_Lt _ _ _ Hab Hbc).
Qed.

#[export] Instance key_rel_total {A} (key : A -> list string) : Total (key_rel key).
Proof. intros x y. apply keys_le_total. Qed.
#[export] Instance key_rel_trans {A} (key : A -> list string) :
  Transitive (key_rel key).
Proof. intros x y z. apply keys_le_trans. Qed.
#[export] Instance key_rel_desc_total {A} (key : A -> list string) :
  Total (key_rel_desc key).
Proof. intros x y. apply keys_le_total. Qed.
#[export] Instance key_rel_desc_trans {A} (key : A -> list string) :
  Transitive (key_rel_desc key).
Proof. intros x y z Hxy Hyz. exact (keys_le_trans _ _ _ Hyz Hxy). Qed.

(** An ordered result is a permutation of the rows, sorted by the keys. *)
Lemma order_by_Permutation {A} (key : A -> list string) (l : list A) :
  order_by key l ≡ₚ l.
Proof. apply merge_sort_Permutation. Qed.

Lemma order_by_sorted {A} (key : A -> list string) (l : list A) :
  StronglySorted (key_rel key) (order_by key l).
Proof. apply StronglySorted_merge_sort; apply _. Qed.

Lemma order_by_desc_Permutation {A} (key : A -> list string) (l : list A) :
  order_by_desc key l ≡ₚ l.
Proof. apply merge_sort_Permutation. Qed.

Lemma order_by_desc_sorted {A} (key : A -> list string) (l : list A) :
  StronglySorted (key_rel_desc key) (order_by_desc key l).
Proof. apply StronglySorted_merge_sort; apply _. Qed.

Lemma sql_limit_length {A} (n : nat) (l : list A) : length (sql_limit n l) <= n.
Proof. unfold sql_limit. rewrite length_take. lia. Qed.

#[export] Hint Resolve order_by_sorted order_by_desc_sorted sql_limit_length : timeclock.
#[export] Hint Rewrite @string_compare_refl @keys_le_refl : timeclock_rw.

Lemma string_app_assoc (a b c : string) :
  (a ++ (b ++ c))%string = ((a ++ b) ++ c)%string.
Proof. induction a as [|x a IH]; [done|]. exact (f_equal (String x) IH). Qed.

Lemma filter_Forall_nil {A} (P : A -> Prop) `{!forall x, Decision (P x)} (l : list A) :
  Forall (fun x => ~ P x) l -> filter P l = [].
Proof. induction 1; [done|]. by rewrite filter_cons_False. Qed.

Lemma order_by_nil {A} (key : A -> list string) : order_by key [] = [].
Proof. reflexivity. Qed.

Lemma StronglySorted_lookup {A} (R : relation A) (l : list A) (i j : nat) (x y : A) :
  StronglySorted R l -> i < j -> l !! i = Some x -> l !! j = Some y -> R x y.
Proof.
  intros Hs. revert i j. induction Hs as [|a l Hs IH Hall]; intros i j Hij Hi Hj; [done|].
  destruct i as [|i], j as [|j]; simpl in *; try lia.
  - simplify_eq. eapply Forall_lookup_1 in Hall; eauto.
  - apply (IH i j); [lia|done|done].
Qed.
