(* ===== verification/Dates.v ===== *)
(** * Civil dates, their text formats, and [convert_date_for_db]

    The code handles dates only as text: [strftime('%d-%m-%Y')] for what it
    stores and for the dashboards ([routes.py] lines 81, 112, 199),
    [strftime('%H:%M:%S')] for the punch time (line 200),
    [strftime('01-%m-%Y')] for the default start of a report (lines 310,
    458, 798), and the nested helper [convert_date_for_db] (lines 315-321,
    repeated at 463-469 and 807-813) that turns "DD-MM-YYYY" into
    "YYYY-MM-DD" before a report query.  This file models those formats
    and proves how they behave under SQLite's text order. *)

From Stdlib Require Import String Ascii Lia ZifyNat.
From stdpp Require Import base list strings.
From S2P Require Import Prelude.

Record date := mkDate { year : nat; month : nat; day : nat }.
Record clock_time := mkTime { hour : nat; minute : nat; second : nat }.

Definition is_leap (y : nat) : bool :=
  (Nat.eqb (y mod 4) 0 && negb (Nat.eqb (y mod 100) 0)) || Nat.eqb (y mod 400) 0.

Definition days_in_month (y m : nat) : nat :=
  match m with
  | 2 => if is_leap y then 29 else 28
  | 4 | 6 | 9 | 11 => 30
  | _ => 31
  end.

(** The dates [datetime.date] represents and [%Y] prints with four digits. *)
Definition valid_date (d : date) : Prop :=
  1000 <= year d < 100 * 100 /\ 1 <= month d <= 12 /\ 1 <= day d <= days_in_month (year d) (month d).

Definition valid_time (t : clock_time) : Prop :=
  hour t < 24 /\ minute t < 60 /\ second t < 60.

Definition date_lt (d1 d2 : date) : Prop :=
  year d1 < year d2 \/
  (year d1 = year d2 /\ (month d1 < month d2 \/ (month d1 = month d2 /\ day d1 < day d2))).

(** ** [strftime] *)

Definition digit (n : nat) : ascii := ascii_of_nat (48 + n mod 10).
Arguments digit : simpl never.

(** Two zero-padded digits ([%d], [%m], [%H], [%M], [%S]). *)
Definition pad2 (n : nat) : string :=
  String (digit (n / 10)) (String (digit n) EmptyString).

(** Four digits ([%Y] for years 1000..9999). *)
Definition pad4 (n : nat) : string := (pad2 (n / 100) ++ pad2 n)%string.

Definition dash : ascii := "-"%char.
Definition colon : ascii := ":"%char.

(** [strftime('%d-%m-%Y')] *)
Definition fmt_dmy (d : date) : string :=
  (pad2 (day d) ++ String dash (pad2 (month d) ++ String dash (pad4 (year d))))%string.

(** [strftime('01-%m-%Y')] *)
Definition fmt_first_of_month (d : date) : string :=
  fmt_dmy (mkDate (year d) (month d) 1).

(** The ISO form "YYYY-MM-DD" that [convert_date_for_db] produces. *)
Definition fmt_iso (d : date) : string :=
  (pad4 (year d) ++ String dash (pad2 (month d) ++ String dash (pad2 (day d))))%string.

(** [strftime('%H:%M:%S')] *)
Definition fmt_hms (t : clock_time) : string :=
  (pad2 (hour t) ++ String colon (pad2 (minute t) ++ String colon (pad2 (second t))))%string.

(** ** [convert_date_for_db] (routes.py 315-321) *)

Definition convert_date_for_db (date_str : string) : result string :=
  if py_truthy date_str && py_contains dash date_str then
    let parts := py_split dash date_str in
    p0 <- py_index parts 0 ;;
    if Nat.eqb (String.length p0) 2 then
      p2 <- py_index parts 2 ;;
      p1 <- py_index parts 1 ;;
      Ok (p2 ++ String dash (p1 ++ String dash p0))%string
    else Ok date_str
  else Ok date_str.

(** ** Lemmas on digits and the formats *)

Lemma mod10_lt (k : nat) : k mod 10 < 10.
Proof. apply Nat.mod_upper_bound. discriminate. Qed.

Lemma digit_code (k : nat) : nat_of_ascii (digit k) = 48 + k mod 10.
Proof.
  unfold digit. rewrite nat_ascii_embedding; [done|]. pose proof (mod10_lt k). lia.
Qed.

Lemma digit_N (k : nat) : N_of_ascii (digit k) = N.of_nat (48 + k mod 10).
Proof.
  unfold digit, ascii_of_nat. rewrite N_ascii_embedding; [done|].
  pose proof (mod10_lt k). lia.
Qed.

Lemma digit_not_dash (k : nat) : digit k <> dash.
Proof.
  intros H. pose proof (digit_code k) as Hc. rewrite H in Hc. change (nat_of_ascii dash) with 45 in Hc. lia.
Qed.

Lemma py_contains_app (c : ascii) (s t : string) :
  py_contains c (s ++ t)%string = py_contains c s || py_contains c t.
Proof.
  induction s as [|x s IH]; simpl; [done|]. by case_decide.
Qed.

Lemma py_split_nodash (s : string) :
  py_contains dash s = false -> py_split dash s = [s].
Proof.
  induction s as [|c s IH]; simpl; [done|]. intros Hs.
  case_decide; [done|]. by rewrite IH.
Qed.

Lemma py_split_app_dash (s t : string) :
  py_contains dash s = false ->
  py_split dash (s ++ String dash t)%string = s :: py_split dash t.
Proof.
  induction s as [|c s IH]; simpl.
  - intros _. by try case_decide.
  - intros Hs. case_decide; [done|]. by rewrite IH.
Qed.

Lemma pad2_nodash (n : nat) : py_contains dash (pad2 n) = false.
Proof.
  unfold pad2. cbn [py_contains].
  rewrite !decide_False; [done| apply digit_not_dash ..].
Qed.

Lemma pad4_nodash (n : nat) : py_contains dash (pad4 n) = false.
Proof. unfold pad4. by rewrite py_contains_app, !pad2_nodash. Qed.

Lemma pad2_length (n : nat) : String.length (pad2 n) = 2.
Proof. done. Qed.

Lemma pad4_length (n : nat) : String.length (pad4 n) = 4.
Proof. done. Qed.

#[export] Hint Resolve pad2_nodash pad4_nodash digit_not_dash : timeclock.

Lemma py_split_fmt (a b c : string) :
  py_contains dash a = false -> py_contains dash b = false ->
  py_contains dash c = false ->
  py_split dash (a ++ String dash (b ++ String dash c))%string = [a; b; c].
Proof.
  intros Ha Hb Hc. rewrite py_split_app_dash, py_split_app_dash, py_split_nodash; done.
Qed.

Lemma fmt_dmy_split (d : date) :
  py_split dash (fmt_dmy d) = [pad2 (day d); pad2 (month d); pad4 (year d)].
Proof. apply py_split_fmt; auto with timeclock. Qed.

Lemma fmt_iso_split (d : date) :
  py_split dash (fmt_iso d) = [pad4 (year d); pad2 (month d); pad2 (day d)].
Proof. apply py_split_fmt; auto with timeclock. Qed.

Lemma fmt_contains_dash (a b : string) :
  py_contains dash (a ++ String dash b)%string = true.
Proof. rewrite py_contains_app. by destruct (py_contains dash a). Qed.

Lemma py_truthy_dash (a b : string) : py_truthy (a ++ String dash b)%string = true.
Proof. by destruct a. Qed.

(** [convert_date_for_db] on a string with three dash-separated parts. *)
Lemma convert_three (a b c : string) :
  py_contains dash a = false -> py_contains dash b = false ->
  py_contains dash c = false ->
  convert_date_for_db (a ++ String dash (b ++ String dash c))%string =
  if Nat.eqb (String.length a) 2 then Ok (c ++ String dash (b ++ String dash a))%string
  else Ok (a ++ String dash (b ++ String dash c))%string.
Proof.
  intros Ha Hb Hc. unfold convert_date_for_db.
  rewrite py_truthy_dash, fmt_contains_dash, py_split_fmt by done. done.
Qed.

(** ** Comparing zero-padded numbers as text *)

Lemma nat_compare_N (a b : nat) :
  N.compare (N.of_nat a) (N.of_nat b) = Nat.compare a b.
Proof. by rewrite Nnat.Nat2N.inj_compare. Qed.

Lemma digit_compare (a b : nat) :
  Ascii.compare (digit a) (digit b) = Nat.compare (a mod 10) (b mod 10).
Proof.
  unfold Ascii.compare. rewrite !digit_N, nat_compare_N.
  destruct (Nat.compare_spec (a mod 10) (b mod 10)) as [E|E|E];
  [apply Nat.compare_eq_iff|apply Nat.compare_lt_iff|apply Nat.compare_gt_iff]; lia.
Qed.

Lemma string_compare_cons (a b : ascii) (s t : string) :
  String.compare (String a s) (String b t) =
  match Ascii.compare a b with Eq => String.compare s t | c => c end.
Proof. reflexivity. Qed.

Lemma pad2_app (n : nat) (s : string) :
  (pad2 n ++ s)%string = String (digit (n / 10)) (String (digit n) s).
Proof. reflexivity. Qed.

(** Two-digit fields compare as the numbers they print. *)
Lemma pad2_compare (n1 n2 : nat) (s1 s2 : string) :
  n1 < 100 -> n2 < 100 ->
  String.compare (pad2 n1 ++ s1) (pad2 n2 ++ s2) =
  match Nat.compare n1 n2 with Eq => String.compare s1 s2 | c => c end.
Proof.
  intros H1 H2. rewrite !pad2_app, !string_compare_cons, !digit_compare.
  destruct (Nat.compare_spec ((n1 / 10) mod 10) ((n2 / 10) mod 10));
  destruct (Nat.compare_spec (n1 mod 10) (n2 mod 10));
  destruct (Nat.compare_spec n1 n2); try lia; done.
Qed.

Lemma pad2_mod100 (n : nat) : pad2 (n mod 100) = pad2 n.
Proof.
  assert ((n mod 100) / 10 mod 10 = (n / 10) mod 10 /\ (n mod 100) mod 10 = n mod 10)
    as [Ht Hu].
  { pose proof (Nat.Div0.mod_mul_r n 10 10) as E. simpl (10 * 10) in E.
    pose proof (mod10_lt n). pose proof (mod10_lt (n / 10)).
    rewrite E, (Nat.mul_comm 10 _), Nat.div_add, Nat.Div0.mod_add by lia.
    rewrite (Nat.div_small (n mod 10)), Nat.add_0_l, !Nat.Div0.mod_mod by lia. done. }
  unfold pad2, digit. by rewrite Ht, Hu.
Qed.

Lemma pad4_compare (n1 n2 : nat) (s1 s2 : string) :
  n1 < 100 * 100 -> n2 < 100 * 100 ->
  String.compare (pad4 n1 ++ s1) (pad4 n2 ++ s2) =
  match Nat.compare n1 n2 with Eq => String.compare s1 s2 | c => c end.
Proof.
  intros H1 H2. unfold pad4. rewrite <- !string_app_assoc.
  rewrite pad2_compare by lia.
  rewrite <- (pad2_mod100 n1), <- (pad2_mod100 n2), pad2_compare by lia.
  destruct (Nat.compare_spec (n1 / 100) (n2 / 100));
  destruct (Nat.compare_spec (n1 mod 100) (n2 mod 100));
  destruct (Nat.compare_spec n1 n2); try lia; done.
Qed.

Lemma dash_before_digits (n : nat) (x y : string) :
  String.compare (String dash x) (pad2 n ++ y) = Lt.
Proof.
  rewrite pad2_app, string_compare_cons. unfold Ascii.compare.
  rewrite digit_N. change (N_of_ascii dash) with (N.of_nat 45).
  rewrite nat_compare_N. by rewrite (proj2 (Nat.compare_lt_iff _ _)) by lia.
Qed.

Lemma fmt_iso_pad2 (d : date) :
  fmt_iso d = (pad2 (year d / 100) ++ (pad2 (year d) ++
                String dash (pad2 (month d) ++ String dash (pad2 (day d)))))%string.
Proof. unfold fmt_iso, pad4. by rewrite <- string_app_assoc. Qed.

(** ** Properties of the date formats *)

Lemma convert_fmt_dmy (d : date) :
  convert_date_for_db (fmt_dmy d) = Ok (fmt_iso d).
Proof. unfold fmt_dmy, fmt_iso. rewrite convert_three; auto with timeclock. Qed.

Lemma convert_fmt_iso (d : date) :
  convert_date_for_db (fmt_iso d) = Ok (fmt_iso d).
Proof. unfold fmt_iso at 1. rewrite convert_three; auto with timeclock. Qed.

(** C7: a date printed with [strftime('%d-%m-%Y')] (the form the code
    stores and puts in the default report bounds) is turned by
    [convert_date_for_db] into its ISO form "YYYY-MM-DD". *)
Theorem convert_dmy_iso (d : date) :
  convert_date_for_db (fmt_dmy d) = Ok (fmt_iso d).
Proof. apply convert_fmt_dmy. Qed.

(** C11: an ISO date (what an HTML date input sends) passes through
    [convert_date_for_db] unchanged. *)
Theorem convert_iso_fixed (d : date) :
  convert_date_for_db (fmt_iso d) = Ok (fmt_iso d).
Proof. apply convert_fmt_iso. Qed.

(** C9: a "MM-YYYY" report bound makes [convert_date_for_db] raise
    [IndexError]: its first part has two characters but [parts[2]] does
    not exist, so the report handler fails instead of answering. *)
Theorem convert_month_year_raises (m y : nat) :
  convert_date_for_db (pad2 m ++ String dash (pad4 y))%string = Raise IndexError.
Proof.
  unfold convert_date_for_db.
  rewrite py_truthy_dash, fmt_contains_dash, py_split_app_dash, py_split_nodash;
    auto with timeclock.
Qed.

Lemma string_app_nil_r (s : string) : (s ++ EmptyString)%string = s.
Proof. induction s as [|c s IH]; [done|]. exact (f_equal (String c) IH). Qed.

Lemma pad2_compare_nil (n1 n2 : nat) :
  n1 < 100 -> n2 < 100 -> String.compare (pad2 n1) (pad2 n2) = Nat.compare n1 n2.
Proof.
  intros H1 H2. rewrite <- (string_app_nil_r (pad2 n1)), <- (string_app_nil_r (pad2 n2)).
  rewrite pad2_compare by done. by destruct (Nat.compare n1 n2).
Qed.

Lemma string_compare_dash (x y : string) :
  String.compare (String dash x) (String dash y) = String.compare x y.
Proof. rewrite string_compare_cons. unfold Ascii.compare. by rewrite N.compare_refl. Qed.

Lemma valid_date_bounds (d : date) :
  valid_date d -> year d < 100 * 100 /\ month d < 100 /\ day d < 100.
Proof.
  intros (Hy & Hm & Hd). split; [lia|]. split; [lia|].
  unfold days_in_month in Hd.
  destruct (month d) as [|[|[|[|[|[|[|[|[|[|[|[|]]]]]]]]]]]];
    try destruct (is_leap _); lia.
Qed.

(** The ISO form orders valid dates chronologically under SQLite's text
    order: had the code stored ISO dates, its range tests would be range
    tests on dates. *)
Theorem fmt_iso_order (d1 d2 : date) :
  valid_date d1 -> valid_date d2 ->
  (String.compare (fmt_iso d1) (fmt_iso d2) = Lt <-> date_lt d1 d2).
Proof.
  intros V1 V2.
  destruct (valid_date_bounds _ V1) as (Hy1 & Hm1 & Hd1).
  destruct (valid_date_bounds _ V2) as (Hy2 & Hm2 & Hd2).
  unfold fmt_iso, date_lt.
  rewrite pad4_compare, string_compare_dash, pad2_compare, string_compare_dash,
    pad2_compare_nil by done.
  destruct (Nat.compare_spec (year d1) (year d2));
  destruct (Nat.compare_spec (month d1) (month d2));
  destruct (Nat.compare_spec (day d1) (day d2)); split; intros; try done; lia.
Qed.

Lemma digits_after_dash (n : nat) (x y : string) :
  String.compare (pad2 n ++ y) (String dash x) = Gt.
Proof. by rewrite String.compare_antisym, dash_before_digits. Qed.

(** A punch date as the code stores it ("DD-MM-YYYY") never lies
    between two report bounds as the report handlers pass them to SQLite
    ("YYYY-MM-DD", from [convert_date_for_db]) when both bounds are in the
    same century: the [BETWEEN] filter of the report queries rejects every
    stored punch, so the reports count no punches at all. *)
Theorem stored_date_outside_report_range (p s e : date) :
  valid_date p -> valid_date s -> valid_date e ->
  year s / 100 = year e / 100 ->
  sql_between (fmt_dmy p) (fmt_iso s) (fmt_iso e) = false.
Proof.
  intros Vp Vs Ve Hc.
  destruct (valid_date_bounds _ Vp) as (_ & _ & Hdp).
  destruct (valid_date_bounds _ Vs) as (Hys & _ & _).
  destruct (valid_date_bounds _ Ve) as (Hye & _ & _).
  unfold sql_between, sql_le, fmt_dmy. rewrite !fmt_iso_pad2.
  rewrite !pad2_compare by lia.
  rewrite digits_after_dash, dash_before_digits.
  destruct (Nat.compare_spec (year s / 100) (day p));
  destruct (Nat.compare_spec (day p) (year e / 100)); try done; lia.
Qed.

(** The stored form compares on the day of the month first: a date with
    a smaller day sorts before one with a larger day, whatever their
    months and years. *)
Lemma fmt_dmy_compare_day (d1 d2 : date) :
  valid_date d1 -> valid_date d2 -> day d1 < day d2 ->
  String.compare (fmt_dmy d1) (fmt_dmy d2) = Lt.
Proof.
  intros V1 V2 Hlt.
  destruct (valid_date_bounds _ V1) as (_ & _ & H1).
  destruct (valid_date_bounds _ V2) as (_ & _ & H2).
  unfold fmt_dmy. rewrite pad2_compare by done.
  by rewrite (proj2 (Nat.compare_lt_iff _ _) Hlt).
Qed.
