(* ===== verification/Schema.v ===== *)
(** * The database: tables, inserts, [init_db] and the reads of [auth.py]

    [database.py] creates two tables.  [usuarios] has the columns [id]
    (INTEGER PRIMARY KEY AUTOINCREMENT), [nome], [cpf] (UNIQUE), [funcao],
    [login] (UNIQUE), [senha] and [perfil] (CHECK in 'admin',
    'colaborador'); [pontos] has [id], [usuario_id], [data], [tipo]
    (CHECK in the four punch types), [hora] and [observacao].  The CHECK
    constraints are the inductive types [perfil] and [tipo]; the UNIQUE
    constraints are checked by [insert_usuario], which raises
    [IntegrityError] like SQLite.  [pontos] has no UNIQUE constraint and
    SQLite does not enforce the FOREIGN KEY unless asked to, so
    [insert_ponto] never fails.  The [created_at] columns are never read
    and are left out. *)

From Stdlib Require Import String Ascii Lia ZifyNat.
From stdpp Require Import base list strings.
From S2P Require Import Prelude.

Inductive perfil := admin | colaborador.
Inductive tipo := entrada | saida_almoco | volta_almoco | saida_final.

#[export] Instance perfil_eq_dec : EqDecision perfil.
Proof. solve_decision. Defined.
#[export] Instance tipo_eq_dec : EqDecision tipo.
Proof. solve_decision. Defined.

Record usuario := mkUsuario {
  u_id : nat; nome : string; cpf : string; funcao : string;
  login : string; senha : string; u_perfil : perfil }.

Record ponto := mkPonto {
  p_id : nat; usuario_id : nat; data : string; p_tipo : tipo;
  hora : string; observacao : string }.

(** The database: each table in rowid order, and the AUTOINCREMENT
    counters of [sqlite_sequence]. *)
Record db := mkDb {
  usuarios : list usuario; pontos : list ponto;
  seq_usuarios : nat; seq_pontos : nat }.

Definition empty_db : db := mkDb [] [] 0 0.

(** [INSERT INTO usuarios (nome, cpf, funcao, login, senha, perfil)]:
    the UNIQUE constraints on [cpf] and [login] make SQLite raise
    [IntegrityError]; otherwise the row gets the next AUTOINCREMENT id. *)
Definition insert_usuario (n c f l h : string) (p : perfil) (s : db) : result db :=
  if existsb (fun u => bool_decide (cpf u = c) || bool_decide (login u = l)) (usuarios s)
  then Raise IntegrityError
  else Ok (mkDb (usuarios s ++ [mkUsuario (S (seq_usuarios s)) n c f l h p])
                (pontos s) (S (seq_usuarios s)) (seq_pontos s)).

(** [INSERT INTO pontos (usuario_id, data, tipo, hora, observacao)]. *)
Definition insert_ponto (uid : nat) (d : string) (t : tipo) (h o : string) (s : db) : db :=
  mkDb (usuarios s) (pontos s ++ [mkPonto (S (seq_pontos s)) uid d t h o])
       (seq_usuarios s) (S (seq_pontos s)).

Section Bootstrap.
(** werkzeug's [generate_password_hash]. *)
Context (generate_password_hash : string -> string).

Definition admin_count (s : db) : nat :=
  length (filter (fun u => u_perfil u = admin) (usuarios s)).

(** [init_db] (database.py 20-65): the tables exist; when no user has
    the admin profile, insert the default administrator. *)
Definition init_db (s : db) : result db :=
  if Nat.eqb (admin_count s) 0 then
    insert_usuario "Administrador" "00000000000" "Administrador" "admin"
      (generate_password_hash "admin123") admin s
  else Ok s.
End Bootstrap.

(** ** The reads of [auth.py] *)

(** [SELECT ... WHERE id = ?] then [fetchone()]. *)
Definition user_get (uid : nat) (s : db) : option usuario :=
  head (filter (fun u => u_id u = uid) (usuarios s)).

(** [SELECT ... WHERE login = ?] then [fetchone()]. *)
Definition user_get_by_login (l : string) (s : db) : option usuario :=
  head (filter (fun u => login u = l) (usuarios s)).

Section Passwords.
(** werkzeug's [check_password_hash]. *)
Context (check_password_hash : string -> string -> bool).

(** [User.check_password] (auth.py 51-61). *)
Definition user_check_password (l pw : string) (s : db) : bool :=
  match user_get_by_login l s with
  | Some u => check_password_hash (senha u) pw
  | None => false
  end.
End Passwords.

(** Flask-Login: the session holds a user id, [load_user] calls
    [User.get]; an id with no row leaves the request anonymous. *)
Definition current_user (sess : option nat) (s : db) : option usuario :=
  match sess with Some uid => user_get uid s | None => None end.

(** ** What a handler answers: a page rendered or a redirect, with the
    message it flashes. *)
Inductive page :=
  | PLogin | PAdminDashboard | PEmployeeDashboard | PRegisterEmployee
  | PReports | PPunchHistory.

Inductive flash :=
  | FlashAccessDenied | FlashDayComplete | FlashPunchRecorded (t : tipo) (now : string)
  | FlashFieldsRequired | FlashCpfDigits | FlashDuplicate | FlashRegistered
  | FlashRegisterError | FlashBadLogin | FlashInternalError
  | FlashNoData | FlashBadFormat | FlashBadDetailedFormat | FlashSelectEmployee
  | FlashNotFound.

Inductive response :=
  | Redirect (p : page) (f : option flash)
  | RedirectTo (url : string)           (** [redirect(next_page)] *)
  | Render (p : page) (f : option flash).

(** ** A concrete database used by the examples: the bootstrap
    administrator and the employee Ana. *)

Definition ana : usuario :=
  mkUsuario 2 "Ana" "12345678909" "Caixa" "ana" "pbkdf2:ana" colaborador.
Definition administrador : usuario :=
  mkUsuario 1 "Administrador" "00000000000" "Administrador" "admin" "pbkdf2:admin123" admin.
Definition ana_db : db := mkDb [administrador; ana] [] 2 0.

