(* ===== verification/Sequencer.v ===== *)
(** * The punch sequencer and the [register_punch] handler

    [register_punch] (routes.py 189-243) reads the current user's punches
    of the day ([SELECT tipo ... ORDER BY hora]), runs the loop over
    [punch_types] that picks the first type not yet recorded (lines
    209-217, the same loop as [employee_dashboard] lines 123-130), and
    inserts that punch, or flashes that the day is complete.  The handler
    is split into its read ([punch_read]) and its write ([punch_write]) so
    that [System] can interleave two requests. *)

From Stdlib Require Import String Ascii Lia ZifyNat.
From stdpp Require Import base list strings sorting.
From S2P Require Import Prelude Schema.

(** [punch_types = ['entrada', 'saida_almoco', 'volta_almoco', 'saida_final']] *)
Definition punch_types : list tipo := [entrada; saida_almoco; volta_almoco; saida_final].

(** [for punch_type in candidates: if punch_type not in completed: return it] *)
Fixpoint first_missing (candidates completed : list tipo) : option tipo :=
  match candidates with
  | [] => None
  | t :: rest => if decide (t ∈ completed) then first_missing rest completed else Some t
  end.

Definition next_punch (completed : list tipo) : option tipo :=
  first_missing punch_types completed.

(** [SELECT tipo FROM pontos WHERE usuario_id = ? AND data = ? ORDER BY hora] *)
Definition today_punches (uid : nat) (today : string) (s : db) : list ponto :=
  order_by (fun p => [hora p])
    (filter (fun p => usuario_id p = uid /\ data p = today) (pontos s)).

Definition completed_types (uid : nat) (today : string) (s : db) : list tipo :=
  map p_tipo (today_punches uid today s).

(** The read of the handler: the guards and the next punch. *)
Inductive punch_plan :=
  | PlanRespond (r : response)           (** answer without writing *)
  | PlanInsert (uid : nat) (t : tipo).   (** insert punch [t] for [uid] *)

Definition punch_read (sess : option nat) (today : string) (s : db) : punch_plan :=
  match current_user sess s with
  | None => PlanRespond (Redirect PLogin None)
  | Some u =>
      if decide (u_perfil u <> colaborador)
      then PlanRespond (Redirect PAdminDashboard (Some FlashAccessDenied))
      else match next_punch (completed_types (u_id u) today s) with
           | None => PlanRespond (Redirect PEmployeeDashboard (Some FlashDayComplete))
           | Some t => PlanInsert (u_id u) t
           end
  end.

(** The write: [observacao = request.form.get('observacao', '').strip()],
    the INSERT and the success flash. *)
Definition punch_write (plan : punch_plan) (obs : option string) (today now : string)
    (s : db) : response * db :=
  match plan with
  | PlanRespond r => (r, s)
  | PlanInsert uid t =>
      (Redirect PEmployeeDashboard (Some (FlashPunchRecorded t now)),
       insert_ponto uid today t now (py_strip (default EmptyString obs)) s)
  end.

(** [register_punch]: [today] and [now] are what [get_brasilia_date()]
    and [get_brasilia_time()] print with [%d-%m-%Y] and [%H:%M:%S]. *)
Definition register_punch (sess : option nat) (obs : option string) (today now : string)
    (s : db) : response * db :=
  punch_write (punch_read sess today s) obs today now s.

(** ** The ledger invariant: per user and day, the recorded types in
    insertion order are a prefix of [punch_types]. *)

Definition day_types (uid : nat) (d : string) (s : db) : list tipo :=
  map p_tipo (filter (fun p => usuario_id p = uid /\ data p = d) (pontos s)).

Definition ledger_wf (s : db) : Prop :=
  forall uid d, day_types uid d s `prefix_of` punch_types.

(** ** Lemmas *)

Lemma first_missing_ext (c ts1 ts2 : list tipo) :
  (forall t, t ∈ ts1 <-> t ∈ ts2) -> first_missing c ts1 = first_missing c ts2.
Proof.
  intros Hext. induction c as [|t c IH]; simpl; [done|].
  specialize (Hext t). do 2 case_decide; naive_solver.
Qed.

Lemma next_punch_take (k : nat) : next_punch (take k punch_types) = punch_types !! k.
Proof.
  do 4 (destruct k as [|k]; [reflexivity|]).
  rewrite take_ge by (simpl; lia). rewrite lookup_ge_None_2 by (simpl; lia).
  reflexivity.
Qed.

Lemma prefix_eq_take {A} (l1 l2 : list A) : l1 `prefix_of` l2 -> l1 = take (length l1) l2.
Proof. intros [k ->]. by rewrite take_app_length. Qed.

Lemma completed_types_perm (uid : nat) (d : string) (s : db) :
  completed_types uid d s ≡ₚ day_types uid d s.
Proof.
  unfold completed_types, today_punches, day_types.
  apply Permutation_map, order_by_Permutation.
Qed.

Lemma next_punch_completed (uid : nat) (d : string) (s : db) :
  next_punch (completed_types uid d s) = next_punch (day_types uid d s).
Proof.
  apply first_missing_ext. intros t. by rewrite (completed_types_perm uid d s).
Qed.

Lemma day_types_insert (uid uid' : nat) (d d' : string) (t : tipo) (h o : string) (s : db) :
  day_types uid d (insert_ponto uid' d' t h o s) =
  day_types uid d s ++ (if decide (uid' = uid /\ d' = d) then [t] else []).
Proof.
  unfold day_types, insert_ponto. simpl. rewrite filter_app, map_app. f_equal.
  unfold filter. simpl. by case_decide.
Qed.

Lemma punch_read_insert (sess : option nat) (today : string) (s : db) (uid : nat) (t : tipo) :
  punch_read sess today s = PlanInsert uid t ->
  exists u, current_user sess s = Some u /\ u_id u = uid /\ u_perfil u = colaborador /\
            next_punch (day_types uid today s) = Some t.
Proof.
  unfold punch_read. destruct (current_user sess s) as [u|]; [|done].
  case_decide as Hp; [done|].
  rewrite next_punch_completed.
  destruct (next_punch _) as [t'|] eqn:E; [|done]. intros [= <- <-].
  exists u. split_and!; [done|done| |done]. destruct (u_perfil u); naive_solver.
Qed.

(** Appending the next punch keeps a prefix of [punch_types] a prefix. *)
Lemma prefix_snoc_next (ts : list tipo) (t : tipo) :
  ts `prefix_of` punch_types -> next_punch ts = Some t ->
  ts ++ [t] `prefix_of` punch_types.
Proof.
  intros Hp Hn. rewrite (prefix_eq_take _ _ Hp) in Hn |- *.
  rewrite next_punch_take in Hn. rewrite <- take_S_r by done. apply prefix_take.
Qed.

(** A write that is not for [(uid, d)] leaves that day's types alone. *)
Lemma ledger_wf_insert (s : db) (uid : nat) (d : string) (t : tipo) (h o : string) :
  ledger_wf s -> next_punch (day_types uid d s) = Some t ->
  ledger_wf (insert_ponto uid d t h o s).
Proof.
  intros Hwf Hn uid' d'. rewrite day_types_insert.
  case_decide as E; [destruct E as [<- <-]; by apply prefix_snoc_next|].
  rewrite app_nil_r. apply Hwf.
Qed.

#[export] Hint Resolve ledger_wf_insert : timeclock.

(** ** Properties *)

(** C1: the sequencer returns the element that follows the recorded
    prefix: when the recorded types of the day are, as a set (in any order
    and with duplicates), the first [k] types of [punch_types], the next
    punch is the [k]-th type, or none once all four are recorded. *)
Theorem next_punch_prefix (ts : list tipo) (k : nat) :
  (forall t, t ∈ ts <-> t ∈ take k punch_types) ->
  next_punch ts = punch_types !! k.
Proof.
  intros Hext. rewrite <- next_punch_take. by apply first_missing_ext.
Qed.

Lemma next_punch_prefix_witness :
  next_punch [saida_almoco; entrada; entrada] = Some volta_almoco.
Proof.
  apply (next_punch_prefix _ 2).
  intros t. simpl. rewrite !elem_of_cons, elem_of_nil. naive_solver.
Defined.

(** C2: when all four types are recorded for the current employee's day,
    [register_punch] answers "day complete" and writes nothing. *)
Theorem register_punch_day_complete (sess : option nat) (obs : option string)
    (today now : string) (s : db) (u : usuario) :
  current_user sess s = Some u -> u_perfil u = colaborador ->
  (forall t, t ∈ day_types (u_id u) today s) ->
  register_punch sess obs today now s =
    (Redirect PEmployeeDashboard (Some FlashDayComplete), s).
Proof.
  intros Hu Hp Hall. unfold register_punch, punch_read. rewrite Hu.
  case_decide as Hd; [by rewrite Hp in Hd|]. rewrite next_punch_completed.
  unfold next_punch. simpl. by rewrite !decide_True by apply Hall.
Qed.

(** C12: when the current employee may punch, [register_punch] inserts
    exactly the next type of the day, at [now], with the stripped note. *)
Theorem register_punch_records_next (sess : option nat) (obs : option string)
    (today now : string) (s : db) (u : usuario) (t : tipo) :
  current_user sess s = Some u -> u_perfil u = colaborador ->
  next_punch (day_types (u_id u) today s) = Some t ->
  register_punch sess obs today now s =
    (Redirect PEmployeeDashboard (Some (FlashPunchRecorded t now)),
     insert_ponto (u_id u) today t now (py_strip (default EmptyString obs)) s).
Proof.
  intros Hu Hp Hn. unfold register_punch, punch_read. rewrite Hu.
  case_decide as Hd; [by rewrite Hp in Hd|]. by rewrite next_punch_completed, Hn.
Qed.

(** [register_punch] keeps the ledger invariant. *)
Lemma register_punch_ledger_wf (sess : option nat) (obs : option string)
    (today now : string) (s : db) :
  ledger_wf s -> ledger_wf (register_punch sess obs today now s).2.
Proof.
  intros Hwf. unfold register_punch.
  destruct (punch_read sess today s) as [r|uid t] eqn:E; simpl; [done|].
  destruct (punch_read_insert _ _ _ _ _ E) as (u & _ & _ & _ & Hn).
  by apply ledger_wf_insert.
Qed.

(** ** A concrete day: the spec's scenario with the employee Ana *)

(** Ana's day with all four punches. *)
Definition ana_full_day : db :=
  mkDb [administrador; ana]
    [mkPonto 1 2 "01-03-2024" entrada "08:00:00" "";
     mkPonto 2 2 "01-03-2024" saida_almoco "12:00:00" "";
     mkPonto 3 2 "01-03-2024" volta_almoco "13:00:00" "";
     mkPonto 4 2 "01-03-2024" saida_final "17:00:00" ""] 2 4.

Lemma register_punch_day_complete_witness :
  register_punch (Some 2) None "01-03-2024" "18:00:00" ana_full_day =
    (Redirect PEmployeeDashboard (Some FlashDayComplete), ana_full_day).
Proof.
  apply (register_punch_day_complete _ _ _ _ _ ana); [reflexivity|reflexivity|].
  intros []; vm_compute; [left|right;left|right;right;left|right;right;right;left].
Defined.

Lemma register_punch_records_next_witness :
  register_punch (Some 2) (Some " atraso ") "01-03-2024" "08:00:00" ana_db =
    (Redirect PEmployeeDashboard (Some (FlashPunchRecorded entrada "08:00:00")),
     insert_ponto 2 "01-03-2024" entrada "08:00:00" "atraso" ana_db).
Proof.
  rewrite (register_punch_records_next _ _ _ _ _ ana entrada); reflexivity.
Defined.
