(* ===== verification/Users.v ===== *)
(** * [register_employee]: an administrator creates an employee

    The handler (routes.py 137-187) checks that the current user is an
    administrator, strips the form fields (not the password), requires
    every field to be non-empty, keeps the digits of the CPF and requires
    exactly 11 of them, rejects a CPF or login already present
    ([SELECT COUNT( * ) ... WHERE cpf = ? OR login = ?]), and inserts the
    user with the profile 'colaborador' and the hashed password; an
    exception from the INSERT is flashed as an error.  A GET renders the
    form.  [request.form[...]] on a missing field raises a 400 error in
    Flask; the model takes the five fields as given. *)

From Stdlib Require Import String Ascii Lia ZifyNat.
From stdpp Require Import base list strings.
From S2P Require Import Prelude Schema.

Record employee_form := mkForm {
  f_nome : string; f_cpf : string; f_funcao : string; f_login : string; f_senha : string }.

(** [SELECT COUNT( * ) as count FROM usuarios WHERE cpf = ? OR login = ?] *)
Definition existing_count (c l : string) (s : db) : nat :=
  length (filter (fun u => cpf u = c \/ login u = l) (usuarios s)).

Section RegisterEmployee.
Context (generate_password_hash : string -> string).

Definition register_employee (sess : option nat) (req : option employee_form) (s : db)
    : response * db :=
  match current_user sess s with
  | None => (Redirect PLogin None, s)
  | Some u =>
    if decide (u_perfil u <> admin)
    then (Redirect PEmployeeDashboard (Some FlashAccessDenied), s)
    else match req with
    | None => (Render PRegisterEmployee None, s)
    | Some f =>
      let n := py_strip (f_nome f) in
      let c := py_strip (f_cpf f) in
      let fn := py_strip (f_funcao f) in
      let l := py_strip (f_login f) in
      let pw := f_senha f in
      if negb (forallb py_truthy [n; c; fn; l; pw])
      then (Render PRegisterEmployee (Some FlashFieldsRequired), s)
      else
        let cpf_clean := keep_digits c in
        if negb (Nat.eqb (String.length cpf_clean) 11)
        then (Render PRegisterEmployee (Some FlashCpfDigits), s)
        else if Nat.ltb 0 (existing_count cpf_clean l s)
        then (Render PRegisterEmployee (Some FlashDuplicate), s)
        else match insert_usuario n cpf_clean fn l (generate_password_hash pw) colaborador s with
             | Ok s' => (Redirect PAdminDashboard (Some FlashRegistered), s')
             | Raise _ => (Render PRegisterEmployee (Some FlashRegisterError), s)
             end
    end
  end.
End RegisterEmployee.

(** ** The invariant of the [usuarios] table *)

Fixpoint all_digits (s : string) : bool :=
  match s with EmptyString => true | String c r => is_digit c && all_digits r end.

(** Ids, CPFs and logins are unique, every id is at most the
    AUTOINCREMENT counter, and every CPF is 11 ASCII digits. *)
Definition users_wf (s : db) : Prop :=
  NoDup (map u_id (usuarios s)) /\ NoDup (map cpf (usuarios s)) /\
  NoDup (map login (usuarios s)) /\
  Forall (fun u => u_id u <= seq_usuarios s /\
                   String.length (cpf u) = 11 /\ all_digits (cpf u) = true) (usuarios s).

(** ** Lemmas *)

Lemma keep_digits_all_digits (s : string) : all_digits (keep_digits s) = true.
Proof.
  induction s as [|c s IH]; simpl; [done|].
  destruct (is_digit c) eqn:E; simpl; [by rewrite E, IH|done].
Qed.

Lemma NoDup_map_snoc {A B} (f : A -> B) (l : list A) (x : A) :
  NoDup (map f l) -> f x ∉ map f l -> NoDup (map f (l ++ [x])).
Proof.
  intros Hl Hx. rewrite map_app. apply NoDup_app. split_and!; [done| |by apply NoDup_singleton].
  intros y Hy ->%list_elem_of_singleton. done.
Qed.

Lemma insert_usuario_Ok (n c f l h : string) (p : perfil) (s s' : db) :
  insert_usuario n c f l h p s = Ok s' ->
  Forall (fun u => cpf u <> c /\ login u <> l) (usuarios s) /\
  s' = mkDb (usuarios s ++ [mkUsuario (S (seq_usuarios s)) n c f l h p])
            (pontos s) (S (seq_usuarios s)) (seq_pontos s).
Proof.
  unfold insert_usuario. destruct (existsb _ _) eqn:E; [done|]. intros [= <-].
  split; [|done]. apply Forall_forall. intros u Hu.
  destruct (bool_decide (cpf u = c) || bool_decide (login u = l)) eqn:Hb.
  - exfalso. assert (existsb (fun u => bool_decide (cpf u = c) || bool_decide (login u = l))
                       (usuarios s) = true) as Ht.
    { apply existsb_exists. exists u. split; [by apply list_elem_of_In|done]. }
    congruence.
  - apply orb_false_iff in Hb as [H1 H2].
    apply bool_decide_eq_false in H1, H2. done.
Qed.

Lemma insert_usuario_wf (n c f l h : string) (p : perfil) (s s' : db) :
  users_wf s -> String.length c = 11 -> all_digits c = true ->
  insert_usuario n c f l h p s = Ok s' -> users_wf s'.
Proof.
  intros (Hid & Hcpf & Hlog & Hall) Hlen Hdig Hins.
  destruct (insert_usuario_Ok _ _ _ _ _ _ _ _ Hins) as [Hfresh ->].
  unfold users_wf; simpl. split_and!.
  - apply NoDup_map_snoc; [done|]. simpl. intros (u & Hu & Hin)%list_elem_of_fmap.
    rewrite Forall_forall in Hall. specialize (Hall u Hin). lia.
  - apply NoDup_map_snoc; [done|]. simpl. intros (u & Hu & Hin)%list_elem_of_fmap.
    rewrite Forall_forall in Hfresh. specialize (Hfresh u Hin). naive_solver.
  - apply NoDup_map_snoc; [done|]. simpl. intros (u & Hu & Hin)%list_elem_of_fmap.
    rewrite Forall_forall in Hfresh. specialize (Hfresh u Hin). naive_solver.
  - apply Forall_app. split; [|by repeat constructor].
    eapply Forall_impl; [exact Hall|]. simpl. intros u (? & ? & ?). split_and!; [lia|done|done].
Qed.

Lemma existing_count_pos (c l : string) (s : db) :
  0 < existing_count c l s <-> exists v, v ∈ usuarios s /\ (cpf v = c \/ login v = l).
Proof.
  unfold existing_count. split.
  - intros H. destruct (filter _ _) as [|v r] eqn:E; simpl in H; [lia|].
    exists v. assert (v ∈ filter (fun u => cpf u = c \/ login u = l) (usuarios s)) as Hv
      by (rewrite E; left). by apply list_elem_of_filter in Hv as [? ?].
  - intros (v & Hv & Hc). destruct (filter _ _) as [|w r] eqn:E; simpl; [|lia].
    assert (v ∈ filter (fun u => cpf u = c \/ login u = l) (usuarios s)) as Hf
      by (by apply list_elem_of_filter). rewrite E in Hf. by apply elem_of_nil in Hf.
Qed.

Section RegisterEmployeeProps.
Context (generate_password_hash : string -> string).
Local Notation register := (register_employee generate_password_hash).

(** The state after [register_employee] is either unchanged or the
    result of inserting a user whose CPF is 11 digits. *)
Lemma register_employee_state (sess : option nat) (req : option employee_form) (s : db) :
  (register sess req s).2 = s \/
  exists n c fn l h, String.length c = 11 /\ all_digits c = true /\
    insert_usuario n c fn l h colaborador s = Ok (register sess req s).2.
Proof.
  unfold register_employee. repeat case_match; try by left. right.
  do 5 eexists. split_and!; [|apply keep_digits_all_digits|done].
  match goal with H : negb (Nat.eqb _ 11) = false |- _ =>
    apply negb_false_iff, Nat.eqb_eq in H; exact H end.
Qed.

Lemma register_employee_users_wf (sess : option nat) (req : option employee_form) (s : db) :
  users_wf s -> users_wf (register sess req s).2.
Proof.
  intros Hwf. destruct (register_employee_state sess req s)
    as [-> | (n & c & fn & l & h & Hl & Hd & Hi)]; [done|].
  by eapply insert_usuario_wf.
Qed.

Lemma register_employee_pontos (sess : option nat) (req : option employee_form) (s : db) :
  pontos (register sess req s).2 = pontos s.
Proof.
  destruct (register_employee_state sess req s)
    as [-> | (n & c & fn & l & h & _ & _ & Hi)]; [done|].
  by destruct (insert_usuario_Ok _ _ _ _ _ _ _ _ Hi) as [_ ->].
Qed.

(** C6: once the form passes the field checks, a CPF (after keeping its
    digits) or a login (after stripping) that is already registered is
    rejected with "CPF ou login já cadastrado", and nothing is written. *)
Theorem register_employee_rejects_duplicate (sess : option nat) (f : employee_form)
    (s : db) (u : usuario) :
  current_user sess s = Some u -> u_perfil u = admin ->
  forallb py_truthy [py_strip (f_nome f); py_strip (f_cpf f); py_strip (f_funcao f);
                     py_strip (f_login f); f_senha f] = true ->
  String.length (keep_digits (py_strip (f_cpf f))) = 11 ->
  (exists v, v ∈ usuarios s /\ (cpf v = keep_digits (py_strip (f_cpf f)) \/
                               login v = py_strip (f_login f))) ->
  register sess (Some f) s = (Render PRegisterEmployee (Some FlashDuplicate), s).
Proof.
  intros Hu Ha Hf Hl Hv. unfold register_employee. rewrite Hu.
  case_decide as Hd; [by rewrite Ha in Hd|]. cbv zeta. rewrite Hf, Hl. simpl.
  by rewrite (proj2 (Nat.ltb_lt _ _) (proj2 (existing_count_pos _ _ _) Hv)).
Qed.

Lemma register_employee_insert (sess : option nat) (f : employee_form)
    (s : db) (u : usuario) :
  current_user sess s = Some u -> u_perfil u = admin ->
  forallb py_truthy [py_strip (f_nome f); py_strip (f_cpf f); py_strip (f_funcao f);
                     py_strip (f_login f); f_senha f] = true ->
  String.length (keep_digits (py_strip (f_cpf f))) = 11 ->
  existing_count (keep_digits (py_strip (f_cpf f))) (py_strip (f_login f)) s = 0 ->
  register sess (Some f) s =
    (Redirect PAdminDashboard (Some FlashRegistered),
     mkDb (usuarios s ++ [mkUsuario (S (seq_usuarios s)) (py_strip (f_nome f))
                            (keep_digits (py_strip (f_cpf f))) (py_strip (f_funcao f))
                            (py_strip (f_login f)) (generate_password_hash (f_senha f))
                            colaborador])
          (pontos s) (S (seq_usuarios s)) (seq_pontos s)).
Proof.
  intros Hu Ha Hf Hl H0. unfold register_employee. rewrite Hu.
  case_decide as Hd; [by rewrite Ha in Hd|]. cbv zeta. rewrite Hf, Hl, H0. simpl.
  unfold insert_usuario. destruct (existsb _ _) eqn:E; [|done].
  exfalso. apply existsb_exists in E as (v & Hv & Hb).
  assert (0 < existing_count (keep_digits (py_strip (f_cpf f))) (py_strip (f_login f)) s);
    [|lia].
  apply existing_count_pos. exists v. split; [by apply list_elem_of_In|].
  apply orb_true_iff in Hb as [Hb|Hb]; apply bool_decide_eq_true in Hb; auto.
Qed.

(** C13: when every check passes and neither the CPF nor the login is
    taken, the employee is appended with the next id, the digits of the
    CPF, the stripped fields, the hashed password and the profile
    'colaborador'. *)
Theorem register_employee_creates (sess : option nat) (f : employee_form)
    (s : db) (u : usuario) :
  current_user sess s = Some u -> u_perfil u = admin ->
  forallb py_truthy [py_strip (f_nome f); py_strip (f_cpf f); py_strip (f_funcao f);
                     py_strip (f_login f); f_senha f] = true ->
  String.length (keep_digits (py_strip (f_cpf f))) = 11 ->
  existing_count (keep_digits (py_strip (f_cpf f))) (py_strip (f_login f)) s = 0 ->
  register sess (Some f) s =
    (Redirect PAdminDashboard (Some FlashRegistered),
     mkDb (usuarios s ++ [mkUsuario (S (seq_usuarios s)) (py_strip (f_nome f))
                            (keep_digits (py_strip (f_cpf f))) (py_strip (f_funcao f))
                            (py_strip (f_login f)) (generate_password_hash (f_senha f))
                            colaborador])
          (pontos s) (S (seq_usuarios s)) (seq_pontos s)).
Proof. apply register_employee_insert. Qed.
End RegisterEmployeeProps.

Definition demo_hash (p : string) : string := ("pbkdf2:" ++ p)%string.

Lemma register_employee_rejects_duplicate_witness :
  register_employee demo_hash (Some 1) (Some (mkForm "Bia" "123.456.789-09" "Caixa" "bia" "x"))
    ana_db = (Render PRegisterEmployee (Some FlashDuplicate), ana_db).
Proof.
  apply (register_employee_rejects_duplicate _ _ _ _ administrador);
    [reflexivity|reflexivity|reflexivity|reflexivity|].
  exists ana. split; [right; left|left; reflexivity].
Defined.

Lemma register_employee_creates_witness :
  register_employee demo_hash (Some 1)
    (Some (mkForm " Bia " "987.654.321-00" "Caixa" "bia" "segredo")) ana_db =
  (Redirect PAdminDashboard (Some FlashRegistered),
   mkDb [administrador; ana; mkUsuario 3 "Bia" "98765432100" "Caixa" "bia"
                                (demo_hash "segredo") colaborador] [] 3 0).
Proof.
  rewrite (register_employee_creates _ _ _ _ administrador); reflexivity.
Defined.
