(* ===== verification/Auth.v ===== *)
(** * The [login] handler

    [login] (routes.py 38-62): on POST, [User.check_password(login,
    password)]; when it holds, [User.get_by_login] and [login_user], then a
    redirect to [next] if given, else to the dashboard of the profile.
    A failed check flashes "Login ou senha incorretos!".  The branch where
    [get_by_login] finds no user flashes "Erro interno".  The result pairs
    the response with the user id put in the session, if any. *)

From Stdlib Require Import String Ascii Lia ZifyNat.
From stdpp Require Import base list strings.
From S2P Require Import Prelude Schema Users.

Record login_form := mkLogin { lf_login : string; lf_password : string }.

Section Login.
Context (check_password_hash : string -> string -> bool).

Definition login (req : option login_form) (next_page : option string) (s : db)
    : response * option nat :=
  match req with
  | None => (Render PLogin None, None)
  | Some f =>
    if user_check_password check_password_hash (lf_login f) (lf_password f) s then
      match user_get_by_login (lf_login f) s with
      | Some u =>
          let r := match next_page with
                   | Some url => if py_truthy url then RedirectTo url
                                 else if decide (u_perfil u = admin)
                                      then Redirect PAdminDashboard None
                                      else Redirect PEmployeeDashboard None
                   | None => if decide (u_perfil u = admin)
                             then Redirect PAdminDashboard None
                             else Redirect PEmployeeDashboard None
                   end in
          (r, Some (u_id u))
      | None => (Render PLogin (Some FlashInternalError), None)
      end
    else (Render PLogin (Some FlashBadLogin), None)
  end.
End Login.

(** ** Properties *)

Lemma user_check_password_Some (chk : string -> string -> bool) (l pw : string) (s : db) :
  user_check_password chk l pw s = true ->
  exists u, user_get_by_login l s = Some u /\ chk (senha u) pw = true.
Proof.
  unfold user_check_password. destruct (user_get_by_login l s) as [u|]; [|done].
  intros H. by exists u.
Qed.

(** C18: the "Erro interno" branch of [login] is dead code: a password
    check succeeds only when [get_by_login] finds the user. *)
Theorem login_no_internal_error (chk : string -> string -> bool) (req : option login_form)
    (next_page : option string) (s : db) :
  (login chk req next_page s).1 <> Render PLogin (Some FlashInternalError).
Proof.
  unfold login. destruct req as [f|]; [|done].
  destruct (user_check_password chk _ _ s) eqn:E; [|done].
  destruct (user_check_password_Some _ _ _ _ E) as (u & -> & _). simpl.
  repeat case_match; done.
Qed.

(** C19: [login] opens a session for [uid] exactly when the first user
    with the given login has id [uid] and the password checks against the
    stored hash. *)
Theorem login_session_iff (chk : string -> string -> bool) (f : login_form)
    (next_page : option string) (s : db) (uid : nat) :
  (login chk (Some f) next_page s).2 = Some uid <->
  exists u, user_get_by_login (lf_login f) s = Some u /\ u_id u = uid /\
            chk (senha u) (lf_password f) = true.
Proof.
  unfold login, user_check_password.
  destruct (user_get_by_login (lf_login f) s) as [u|]; simpl.
  - destruct (chk (senha u) (lf_password f)) eqn:E; simpl.
    + split; [intros [= <-]; by exists u|]. intros (v & [= <-] & <- & _). done.
    + split; [done|]. intros (v & [= <-] & _ & H). congruence.
  - split; [done|]. by intros (v & ? & _).
Qed.

Lemma login_session_iff_witness :
  (login (fun h p => bool_decide (h = demo_hash p)) (Some (mkLogin "ana" "ana")) None ana_db).2
    = Some 2.
Proof.
  apply login_session_iff. exists ana. split_and!; reflexivity.
Defined.

Lemma user_get_by_login_snoc (l : string) (us : list usuario) (u : usuario) (s : db) :
  Forall (fun v => Schema.login v <> l) us -> Schema.login u = l ->
  head (filter (fun v => Schema.login v = l) (us ++ [u])) = Some u.
Proof.
  intros Hall Hu. rewrite filter_app, filter_Forall_nil by done. simpl.
  by rewrite filter_cons_True by done.
Qed.

Lemma existing_count_zero (c l : string) (s : db) :
  existing_count c l s = 0 -> Forall (fun v => Schema.login v <> l) (usuarios s).
Proof.
  intros H. apply Forall_forall. intros v Hv Hl.
  assert (0 < existing_count c l s); [|lia].
  apply existing_count_pos. exists v. split; [done|by right].
Qed.

Section Credentials.
Context (generate_password_hash : string -> string) (check_password_hash : string -> string -> bool).
(** The law of werkzeug's pair the code relies on. *)
Hypothesis check_generate : forall p q,
  check_password_hash (generate_password_hash p) q = true <-> p = q.

(** C20: an employee just created by [register_employee] logs in with the
    stripped login and the password typed in the form, and gets a session
    for the new id; any other password is refused. *)
Theorem registered_employee_login (sess : option nat) (f : employee_form) (s : db)
    (u : usuario) (pw : string) :
  current_user sess s = Some u -> u_perfil u = admin ->
  forallb py_truthy [py_strip (f_nome f); py_strip (f_cpf f); py_strip (f_funcao f);
                     py_strip (f_login f); f_senha f] = true ->
  String.length (keep_digits (py_strip (f_cpf f))) = 11 ->
  existing_count (keep_digits (py_strip (f_cpf f))) (py_strip (f_login f)) s = 0 ->
  let s' := (register_employee generate_password_hash sess (Some f) s).2 in
  (login check_password_hash (Some (mkLogin (py_strip (f_login f)) pw)) None s').2 =
    if decide (pw = f_senha f) then Some (S (seq_usuarios s)) else None.
Proof.
  intros Hu Ha Hf Hl H0 s'. subst s'.
  rewrite (register_employee_insert _ _ _ _ u) by done. simpl.
  unfold login, user_check_password, user_get_by_login. simpl.
  rewrite user_get_by_login_snoc by (done || by eapply existing_count_zero). simpl.
  destruct (check_password_hash _ pw) eqn:E; simpl.
  - apply check_generate in E. by rewrite decide_True.
  - rewrite decide_False; [done|]. intros ->.
    pose proof (proj2 (check_generate (f_senha f) (f_senha f)) eq_refl). congruence.
Qed.
End Credentials.

Definition demo_check (h p : string) : bool := bool_decide (h = demo_hash p).

Lemma demo_hash_law (p q : string) : demo_check (demo_hash p) q = true <-> p = q.
Proof.
  unfold demo_check. rewrite bool_decide_eq_true. unfold demo_hash. simpl.
  split; [intros H; by simplify_eq|by intros ->].
Qed.

Definition bia_form : employee_form := mkForm " Bia " "987.654.321-00" "Caixa" "bia" "segredo".

Lemma registered_employee_login_witness :
  (login demo_check (Some (mkLogin (py_strip (f_login bia_form)) "segredo")) None
     (register_employee demo_hash (Some 1) (Some bia_form) ana_db).2).2 = Some 3.
Proof.
  eapply eq_trans;
    [apply (registered_employee_login demo_hash demo_check demo_hash_law (Some 1) bia_form
              ana_db administrador "segredo")|]; reflexivity.
Defined.
