(* ===== verification/System.v ===== *)
(** * The server as a transition system

    Only two handlers write: [register_punch] and [register_employee];
    [init_db] runs when the application starts.  [step] is one of them on
    the database, [reachable] the states from [init_db] on an empty
    database.  The invariant [db_wf] of every reachable state gathers the
    users invariant, the ledger invariant and the ownership of punches.

    The sequencer's read and write are two SQL statements with no
    transaction or lock between them, and the [pontos] table has no
    UNIQUE constraint on (user, date, type).  [cstep] lets requests of
    [register_punch] interleave: a request first reads ([punch_read]),
    later writes ([punch_write]). *)

From Stdlib Require Import String Ascii Lia ZifyNat.
From stdpp Require Import base list strings relations.
From S2P Require Import Prelude Dates Schema Sequencer Users.

(** Every punch belongs to an existing user with the employee profile. *)
Definition punches_owned (s : db) : Prop :=
  Forall (fun p => exists u, u ∈ usuarios s /\ u_id u = usuario_id p /\
                             u_perfil u = colaborador) (pontos s).

(** Every punch date is what [strftime('%d-%m-%Y')] prints for a valid
    date: the form [register_punch] stores. *)
Definition punch_dates_dmy (s : db) : Prop :=
  Forall (fun p => exists d, valid_date d /\ data p = fmt_dmy d) (pontos s).

Definition db_wf (s : db) : Prop :=
  users_wf s /\ ledger_wf s /\ punches_owned s /\ punch_dates_dmy s.

Section Server.
Context (generate_password_hash : string -> string).

Inductive step : db -> db -> Prop :=
  | step_punch sess obs (today : date) (now : clock_time) s :
      valid_date today ->
      step s (register_punch sess obs (fmt_dmy today) (fmt_hms now) s).2
  | step_register sess req s :
      step s (register_employee generate_password_hash sess req s).2
  | step_init s s' :
      init_db generate_password_hash s = Ok s' -> step s s'.

Inductive reachable : db -> Prop :=
  | reach_start s : init_db generate_password_hash empty_db = Ok s -> reachable s
  | reach_step s s' : reachable s -> step s s' -> reachable s'.

(** A request of [register_punch] in flight: what it read, and the
    inputs of its write. *)
Record pending := mkPending {
  pd_plan : punch_plan; pd_obs : option string; pd_today : string; pd_now : string }.

Inductive cstep : db * list pending -> db * list pending -> Prop :=
  | cstep_seq s s' ps : step s s' -> cstep (s, ps) (s', ps)
  | cstep_read sess obs (today : date) (now : clock_time) s ps :
      valid_date today ->
      cstep (s, ps) (s, ps ++ [mkPending (punch_read sess (fmt_dmy today) s) obs
                                 (fmt_dmy today) (fmt_hms now)])
  | cstep_write s ps1 pd ps2 :
      cstep (s, ps1 ++ pd :: ps2)
            ((punch_write (pd_plan pd) (pd_obs pd) (pd_today pd) (pd_now pd) s).2,
             ps1 ++ ps2).
End Server.

(** ** What each handler changes *)

Lemma punch_write_tables (pl : punch_plan) (obs : option string) (today now : string) (s : db) :
  usuarios (punch_write pl obs today now s).2 = usuarios s /\
  seq_usuarios (punch_write pl obs today now s).2 = seq_usuarios s.
Proof. by destruct pl. Qed.

Lemma users_wf_same (s s' : db) :
  usuarios s' = usuarios s -> seq_usuarios s' = seq_usuarios s -> users_wf s -> users_wf s'.
Proof. unfold users_wf. by intros -> ->. Qed.

Lemma ledger_wf_same (s s' : db) : pontos s' = pontos s -> ledger_wf s -> ledger_wf s'.
Proof. unfold ledger_wf, day_types. by intros ->. Qed.

Lemma punches_owned_grow (s s' : db) :
  pontos s' = pontos s -> usuarios s ⊆ usuarios s' -> punches_owned s -> punches_owned s'.
Proof.
  unfold punches_owned. intros -> Hsub Hall. eapply Forall_impl; [exact Hall|].
  intros p (u & Hu & ?). exists u. split; [by apply Hsub|done].
Qed.

Lemma insert_usuario_grow (n c f l h : string) (p : perfil) (s s' : db) :
  insert_usuario n c f l h p s = Ok s' -> pontos s' = pontos s /\ usuarios s ⊆ usuarios s'.
Proof.
  intros Hi. destruct (insert_usuario_Ok _ _ _ _ _ _ _ _ Hi) as [_ ->].
  split; [done|]. simpl. intros x Hx. apply elem_of_app. by left.
Qed.

Lemma punch_read_owner (sess : option nat) (today : string) (s : db) (uid : nat) (t : tipo) :
  punch_read sess today s = PlanInsert uid t ->
  exists u, u ∈ usuarios s /\ u_id u = uid /\ u_perfil u = colaborador.
Proof.
  intros E. destruct (punch_read_insert _ _ _ _ _ E) as (u & Hu & Hid & Hp & _).
  exists u. split; [|done]. destruct sess as [i|]; [|done]. simpl in Hu.
  unfold user_get in Hu. destruct (filter _ _) as [|v r] eqn:F; [done|].
  simpl in Hu. injection Hu as <-.
  assert (v ∈ filter (fun u => u_id u = i) (usuarios s)) as Hv by (rewrite F; left).
  by apply list_elem_of_filter in Hv as [_ ?].
Qed.

Lemma punch_dates_dmy_same (s s' : db) :
  pontos s' = pontos s -> punch_dates_dmy s -> punch_dates_dmy s'.
Proof. unfold punch_dates_dmy. by intros ->. Qed.

Lemma register_punch_db_wf (sess : option nat) (obs : option string) (today : date)
    (now : string) (s : db) :
  valid_date today -> db_wf s -> db_wf (register_punch sess obs (fmt_dmy today) now s).2.
Proof.
  intros Hv (Hu & Hl & Ho & Hd).
  destruct (punch_write_tables (punch_read sess (fmt_dmy today) s) obs (fmt_dmy today) now s).
  split_and!; [by eapply users_wf_same|by apply register_punch_ledger_wf| |];
  unfold register_punch; destruct (punch_read sess (fmt_dmy today) s) as [r|uid t] eqn:E;
    try done; unfold punches_owned, punch_dates_dmy; simpl;
    apply Forall_app; (split; [done|]); constructor; try constructor.
  - by apply (punch_read_owner sess (fmt_dmy today) s _ t).
  - by exists today.
Qed.

Lemma register_employee_db_wf (h : string -> string) (sess : option nat)
    (req : option employee_form) (s : db) :
  db_wf s -> db_wf (register_employee h sess req s).2.
Proof.
  intros (Hu & Hl & Ho & Hd). split_and!.
  - by apply register_employee_users_wf.
  - eapply ledger_wf_same; [apply register_employee_pontos|done].
  - destruct (register_employee_state h sess req s) as [-> | (n & c & fn & l & pw & _ & _ & Hi)];
      [done|].
    destruct (insert_usuario_grow _ _ _ _ _ _ _ _ Hi). by eapply punches_owned_grow.
  - eapply punch_dates_dmy_same; [apply register_employee_pontos|done].
Qed.

Lemma init_db_db_wf (h : string -> string) (s s' : db) :
  db_wf s -> init_db h s = Ok s' -> db_wf s'.
Proof.
  intros (Hu & Hl & Ho & Hd). unfold init_db.
  destruct (Nat.eqb _ 0); [|intros [= <-]; by split_and!].
  intros Hi. destruct (insert_usuario_grow _ _ _ _ _ _ _ _ Hi).
  split_and!; [exact (insert_usuario_wf _ "00000000000" _ _ _ _ _ _ Hu eq_refl eq_refl Hi)
             |by eapply ledger_wf_same|by eapply punches_owned_grow|by eapply punch_dates_dmy_same].
Qed.

Lemma empty_db_wf : db_wf empty_db.
Proof.
  split_and!; [split_and!; constructor| |constructor|constructor].
  intros uid d. exists punch_types. done.
Qed.

Lemma step_db_wf (h : string -> string) (s s' : db) : step h s s' -> db_wf s -> db_wf s'.
Proof.
  destruct 1; intros Hwf;
    [by apply register_punch_db_wf|by apply register_employee_db_wf|by eapply init_db_db_wf].
Qed.

#[export] Hint Resolve step_db_wf empty_db_wf init_db_db_wf : timeclock.

(** C3: every state the server reaches from its start, one request at a
    time, satisfies the invariant: user ids, CPFs and logins are unique and
    CPFs are 11 digits; for every employee and day the punch types recorded,
    in insertion order, are a prefix of [entrada, saida_almoco,
    volta_almoco, saida_final] (so each type at most once and in order);
    every punch belongs to a registered employee; and every punch date is
    a valid date printed as DD-MM-YYYY. *)
Theorem reachable_db_wf (h : string -> string) (s : db) : reachable h s -> db_wf s.
Proof. induction 1; eauto with timeclock. Qed.

(** The same invariant, for use by the clients of this file. *)
Lemma reachable_wf (h : string -> string) (s : db) : reachable h s -> db_wf s.
Proof. induction 1; eauto with timeclock. Qed.

(** ** Ana's database is reachable: [init_db], then the administrator
    registers Ana. *)

Definition admin_only_db : db := mkDb [administrador] [] 1 0.

Definition ana_form : employee_form := mkForm "Ana" "123.456.789-09" "Caixa" "ana" "ana".

Lemma ana_db_reachable : reachable demo_hash ana_db.
Proof.
  change ana_db with (register_employee demo_hash (Some 1) (Some ana_form) admin_only_db).2.
  apply reach_step with admin_only_db; [apply reach_start; reflexivity|constructor].
Qed.

Lemma reachable_db_wf_witness : db_wf ana_db.
Proof. apply (reachable_db_wf demo_hash). apply ana_db_reachable. Defined.

(** The database after two interleaved clock-ins of Ana on 01-03-2024. *)
Definition ana_twice : db :=
  insert_ponto 2 "01-03-2024" entrada "08:00:01" ""
    (insert_ponto 2 "01-03-2024" entrada "08:00:00" "" ana_db).

(** C4: the read-then-write of [register_punch] is not atomic and
    [pontos] has no UNIQUE constraint on (usuario_id, data, tipo): from a
    reachable state, two requests of Ana that both read before either
    writes record two [entrada] punches for the same day, which breaks the
    ledger invariant that every sequential run keeps (C3). *)
Theorem concurrent_clock_in_duplicates :
  reachable demo_hash ana_db /\
  rtc (cstep demo_hash) (ana_db, []) (ana_twice, []) /\
  day_types 2 "01-03-2024" ana_twice = [entrada; entrada] /\
  ~ ledger_wf ana_twice.
Proof.
  split_and!.
  - apply ana_db_reachable.
  - eapply rtc_l; [apply (cstep_read _ (Some 2) None (mkDate 2024 3 1) (mkTime 8 0 0));
                    unfold valid_date; simpl; lia|].
    eapply rtc_l; [apply (cstep_read _ (Some 2) None (mkDate 2024 3 1) (mkTime 8 0 1));
                    unfold valid_date; simpl; lia|].
    eapply rtc_l; [apply (cstep_write _ _ [])|].
    eapply rtc_l; [apply (cstep_write _ _ [])|].
    vm_compute. apply rtc_refl.
  - reflexivity.
  - intros Hwf. destruct (Hwf 2 "01-03-2024") as [k Hk]. vm_compute in Hk. discriminate.
Qed.
