(* ===== verification/Views.v ===== *)
(** * The read-only pages: dashboards and punch history

    [employee_dashboard] (routes.py 105-135) shows today's punches of the
    current employee and the next punch, with the same loop as
    [register_punch]; [admin_dashboard] (71-103) counts, for every
    employee, today's punches of each type; [punch_history] (245-298)
    lists punches newest first, at most 100: all employees' or one
    employee's for an administrator, the user's own otherwise.  Its
    [ORDER BY p.data DESC] compares the stored "DD-MM-YYYY" texts, so in
    every reachable state a page lists punches by day of the month. *)

From Stdlib Require Import String Ascii Lia ZifyNat.
From stdpp Require Import base list strings sorting.
From S2P Require Import Prelude Dates Schema Sequencer Users System.

(** ** [employee_dashboard] *)

Inductive employee_page :=
  | EmployeeRedirect (r : response)
  | EmployeePage (today_rows : list ponto) (next : option tipo) (today : string).

Definition employee_dashboard (sess : option nat) (today : string) (s : db) : employee_page :=
  match current_user sess s with
  | None => EmployeeRedirect (Redirect PLogin None)
  | Some u =>
      if decide (u_perfil u <> colaborador) then EmployeeRedirect (Redirect PAdminDashboard None)
      else
        let rows := today_punches (u_id u) today s in
        EmployeePage rows (next_punch (map p_tipo rows)) today
  end.

(** ** [admin_dashboard] *)

Record dash_row := mkDashRow {
  a_nome : string; a_funcao : string;
  c_entrada : nat; c_saida_almoco : nat; c_volta_almoco : nat; c_saida_final : nat }.

(** [COUNT(CASE WHEN p.tipo = t THEN 1 END)] over the LEFT JOIN with
    [p.data = today]. *)
Definition count_tipo (uid : nat) (today : string) (t : tipo) (s : db) : nat :=
  length (filter (fun p => usuario_id p = uid /\ data p = today /\ p_tipo p = t) (pontos s)).

Definition dash_row_of (today : string) (s : db) (u : usuario) : dash_row :=
  mkDashRow (nome u) (funcao u)
    (count_tipo (u_id u) today entrada s) (count_tipo (u_id u) today saida_almoco s)
    (count_tipo (u_id u) today volta_almoco s) (count_tipo (u_id u) today saida_final s).

Inductive admin_page :=
  | AdminRedirect (r : response)
  | AdminPage (rows : list dash_row) (total_employees : nat) (today : string).

Definition admin_dashboard (sess : option nat) (today : string) (s : db) : admin_page :=
  match current_user sess s with
  | None => AdminRedirect (Redirect PLogin None)
  | Some u =>
      if decide (u_perfil u <> admin)
      then AdminRedirect (Redirect PEmployeeDashboard (Some FlashAccessDenied))
      else
        let emps := filter (fun v => u_perfil v = colaborador) (usuarios s) in
        AdminPage (order_by (fun r => [a_nome r]) (map (dash_row_of today s) emps))
                  (length emps) today
  end.

(** ** [punch_history] *)

(** A row: the punch, and [u.nome] when the query joins the users. *)
Definition history_row := (ponto * option string)%type.

(** [FROM pontos p JOIN usuarios u ON p.usuario_id = u.id], keeping the
    rows whose user satisfies the WHERE condition on [u]. *)
Definition joined_rows (keep : usuario -> bool) (ps : list ponto) (s : db) : list history_row :=
  omap (fun p => u ← user_get (usuario_id p) s;
                 if keep u then Some (p, Some (nome u)) else None) ps.

(** [ORDER BY p.data DESC, p.hora DESC LIMIT 100] *)
Definition newest_100 (rows : list history_row) : list history_row :=
  sql_limit 100 (order_by_desc (fun r => [data r.1; hora r.1]) rows).

Inductive history_page :=
  | HistoryRedirect (r : response)
  | HistoryPage (rows : list history_row) (employee_name : string) (employees : list usuario).

Definition punch_history (sess : option nat) (employee_id : option nat) (s : db) : history_page :=
  match current_user sess s with
  | None => HistoryRedirect (Redirect PLogin None)
  | Some u =>
      if decide (u_perfil u = admin) then
        let employees := order_by (fun v => [nome v])
                           (filter (fun v => u_perfil v = colaborador) (usuarios s)) in
        match employee_id with
        | Some eid =>
            let rows := newest_100 (joined_rows (fun _ => true)
                                      (filter (fun p => usuario_id p = eid) (pontos s)) s) in
            let name := match user_get eid s with Some v => nome v | None => "Funcionário" end in
            HistoryPage rows name employees
        | None =>
            let rows := newest_100 (joined_rows
                                      (fun v => bool_decide (u_perfil v = colaborador))
                                      (pontos s) s) in
            HistoryPage rows "Todos os Funcionários" employees
        end
      else
        let rows := newest_100 (map (fun p => (p, None))
                                    (filter (fun p => usuario_id p = u_id u) (pontos s))) in
        HistoryPage rows (nome u) []
  end.

(** ** Lemmas *)

Lemma newest_100_Forall (P : history_row -> Prop) (rows : list history_row) :
  Forall P rows -> Forall P (newest_100 rows).
Proof.
  intros H. unfold newest_100, sql_limit. apply Forall_take.
  by rewrite (order_by_desc_Permutation _ rows).
Qed.

Lemma count_tipo_day_types (uid : nat) (d : string) (t : tipo) (s : db) :
  count_tipo uid d t s = length (filter (fun x => x = t) (day_types uid d s)).
Proof.
  unfold count_tipo, day_types. induction (pontos s) as [|p ps IH]; [done|].
  rewrite !filter_cons.
  destruct (decide (usuario_id p = uid /\ data p = d)) as [Hud|Hud]; simpl.
  - rewrite filter_cons. destruct (decide (p_tipo p = t)) as [Ht|Ht].
    + rewrite decide_True by naive_solver. simpl. by rewrite IH.
    + by rewrite decide_False by naive_solver.
  - by rewrite decide_False by naive_solver.
Qed.

Definition count_in (t : tipo) (ts : list tipo) : nat := length (filter (fun x => x = t) ts).

(** Along a prefix of [punch_types] the counts of the four types are at
    most one and never increase. *)
Lemma prefix_counts (ts : list tipo) :
  ts `prefix_of` punch_types ->
  count_in saida_final ts <= count_in volta_almoco ts /\
  count_in volta_almoco ts <= count_in saida_almoco ts /\
  count_in saida_almoco ts <= count_in entrada ts /\ count_in entrada ts <= 1.
Proof.
  intros Hp. rewrite (prefix_eq_take _ _ Hp). generalize (length ts) as k. intros k.
  do 4 (destruct k as [|k]; [vm_compute; lia|]).
  rewrite take_ge by (simpl; lia). vm_compute. lia.
Qed.

Lemma joined_rows_from (keep : usuario -> bool) (ps : list ponto) (s : db) :
  Forall (fun r : history_row => r.1 ∈ ps) (joined_rows keep ps s).
Proof.
  apply Forall_forall. intros r (p & Hp & Hf)%list_elem_of_omap.
  destruct (user_get _ _) as [u|]; simpl in Hf; [|done].
  destruct (keep u); simplify_eq; done.
Qed.

(** Every history page is the newest 100 of rows drawn from [pontos]. *)
Lemma punch_history_rows (sess eid : option nat) (s : db) (rows : list history_row)
    (name : string) (emps : list usuario) :
  punch_history sess eid s = HistoryPage rows name emps ->
  exists xs, rows = newest_100 xs /\ Forall (fun r : history_row => r.1 ∈ pontos s) xs.
Proof.
  unfold punch_history. destruct (current_user sess s) as [u|]; [|done].
  case_decide; [destruct eid as [eid|]|]; intros [= <- _ _]; eexists; split; try reflexivity.
  - eapply Forall_impl; [apply joined_rows_from|].
    intros r Hr. by apply list_elem_of_filter in Hr as [_ ?].
  - apply joined_rows_from.
  - apply Forall_forall. intros r (p & -> & Hp)%list_elem_of_fmap.
    by apply list_elem_of_filter in Hp as [_ ?].
Qed.

(** A row listed before another has a key at least as large. *)
Lemma newest_100_desc (xs : list history_row) (i j : nat) (x y : history_row) :
  i < j -> newest_100 xs !! i = Some x -> newest_100 xs !! j = Some y ->
  keys_le [data y.1; hora y.1] [data x.1; hora x.1] = true.
Proof.
  unfold newest_100, sql_limit. intros Hij [Hi _]%lookup_take_Some [Hj _]%lookup_take_Some.
  exact (StronglySorted_lookup _ _ _ _ _ _ (order_by_desc_sorted _ xs) Hij Hi Hj).
Qed.

(** ** Properties *)

(** C21: the employee dashboard announces exactly what the punch button
    does: when it shows next type [t], [register_punch] in the same state
    records [t]; when it shows none, the punch is refused as day
    complete. *)
Theorem employee_dashboard_agrees (sess : option nat) (today today' : string) (s : db)
    (rows : list ponto) (nxt : option tipo) (obs : option string) (now : string) :
  employee_dashboard sess today s = EmployeePage rows nxt today' ->
  (register_punch sess obs today now s).1 =
    match nxt with
    | Some t => Redirect PEmployeeDashboard (Some (FlashPunchRecorded t now))
    | None => Redirect PEmployeeDashboard (Some FlashDayComplete)
    end.
Proof.
  unfold employee_dashboard, register_punch, punch_read, completed_types.
  destruct (current_user sess s) as [u|]; [|done]. case_decide; [done|].
  intros [= <- <- <-]. by destruct (next_punch _).
Qed.

Lemma employee_dashboard_agrees_witness :
  (register_punch (Some 2) None "01-03-2024" "08:00:00" ana_db).1 =
    Redirect PEmployeeDashboard (Some (FlashPunchRecorded entrada "08:00:00")).
Proof.
  apply (employee_dashboard_agrees _ _ "01-03-2024" _ [] (Some entrada)). reflexivity.
Defined.

(** C22: in every reachable state the administrator's dashboard shows,
    for every employee, today's counts of the four types as at most one
    each and never more of a later type than of an earlier one. *)
Theorem admin_dashboard_counts (h : string -> string) (sess : option nat)
    (today today' : string) (s : db) (rows : list dash_row) (n : nat) :
  reachable h s -> admin_dashboard sess today s = AdminPage rows n today' ->
  Forall (fun r => c_saida_final r <= c_volta_almoco r <= c_saida_almoco r /\
                   c_saida_almoco r <= c_entrada r <= 1) rows.
Proof.
  intros Hr. destruct (reachable_wf h s Hr) as (_ & Hl & _).
  unfold admin_dashboard. destruct (current_user sess s) as [adm|]; [|done]. case_decide; [done|].
  intros [= <- _ _]. rewrite (order_by_Permutation _ _).
  apply Forall_forall. intros r (u & -> & _)%list_elem_of_fmap. unfold dash_row_of; simpl.
  rewrite !count_tipo_day_types.
  pose proof (prefix_counts _ (Hl (u_id u) today)) as Hc. unfold count_in in Hc. lia.
Qed.

Lemma admin_dashboard_counts_witness :
  Forall (fun r => c_saida_final r <= c_volta_almoco r <= c_saida_almoco r /\
                   c_saida_almoco r <= c_entrada r <= 1)
    [mkDashRow "Ana" "Caixa" 1 0 0 0].
Proof.
  apply (admin_dashboard_counts demo_hash (Some 1) "15-03-2024" "15-03-2024"
           (register_punch (Some 2) None "15-03-2024" "08:00:00" ana_db).2 _ 1).
  - apply reach_step with ana_db; [apply ana_db_reachable|].
    apply (step_punch demo_hash (Some 2) None (mkDate 2024 3 15) (mkTime 8 0 0)).
    unfold valid_date; simpl; lia.
  - vm_compute. reflexivity.
Defined.

(** C23: an employee's history lists only that employee's punches, and
    at most 100 of them. *)
Theorem punch_history_own (sess : option nat) (eid : option nat) (s : db) (u : usuario)
    (rows : list history_row) (name : string) (emps : list usuario) :
  current_user sess s = Some u -> u_perfil u <> admin ->
  punch_history sess eid s = HistoryPage rows name emps ->
  length rows <= 100 /\ Forall (fun r => usuario_id r.1 = u_id u) rows.
Proof.
  intros Hu Ha. unfold punch_history. rewrite Hu. rewrite decide_False by done.
  intros [= <- _ _]. split; [apply sql_limit_length|].
  apply newest_100_Forall. apply Forall_forall.
  intros r (p & -> & Hp)%list_elem_of_fmap. by apply list_elem_of_filter in Hp as [? _].
Qed.

Lemma punch_history_own_witness :
  length [(mkPonto 1 2 "01-03-2024" entrada "08:00:00" "", @None string)] <= 100 /\
  Forall (fun r : history_row => usuario_id r.1 = u_id ana)
    [(mkPonto 1 2 "01-03-2024" entrada "08:00:00" "", @None string)].
Proof.
  apply (punch_history_own (Some 2) None
           (insert_ponto 2 "01-03-2024" entrada "08:00:00" "" ana_db) ana _ "Ana" []).
  - reflexivity.
  - discriminate.
  - vm_compute. reflexivity.
Defined.

(** C10: in every reachable state every history page lists its punches
    by non-increasing day of the month, whatever their months and years:
    [ORDER BY p.data DESC] compares the stored "DD-MM-YYYY" texts, so a
    punch of 02-01-2024 is listed before one of 01-02-2024, and the
    [LIMIT 100] keeps the punches of the largest days, not the newest. *)
Theorem history_by_day_of_month (h : string -> string) (sess eid : option nat) (s : db)
    (rows : list history_row) (name : string) (emps : list usuario)
    (i j : nat) (r1 r2 : history_row) :
  reachable h s -> punch_history sess eid s = HistoryPage rows name emps ->
  i < j -> rows !! i = Some r1 -> rows !! j = Some r2 ->
  exists d1 d2, valid_date d1 /\ valid_date d2 /\
    data r1.1 = fmt_dmy d1 /\ data r2.1 = fmt_dmy d2 /\ day d2 <= day d1.
Proof.
  intros Hr Hh Hij H1 H2. destruct (reachable_wf h s Hr) as (_ & _ & _ & Hd).
  destruct (punch_history_rows _ _ _ _ _ _ Hh) as (xs & -> & Hin).
  pose proof (newest_100_desc xs i j r1 r2 Hij H1 H2) as Hle.
  apply newest_100_Forall in Hin. unfold punch_dates_dmy in Hd. rewrite Forall_forall in Hd.
  destruct (Hd _ (Forall_lookup_1 _ _ _ _ Hin H1)) as (d1 & V1 & E1).
  destruct (Hd _ (Forall_lookup_1 _ _ _ _ Hin H2)) as (d2 & V2 & E2).
  exists d1, d2. split_and!; try done.
  destruct (decide (day d2 <= day d1)) as [|Hgt]; [done|]. exfalso.
  rewrite E1, E2 in Hle. cbn [keys_le] in Hle.
  rewrite String.compare_antisym, (fmt_dmy_compare_day d1 d2) in Hle by (done || lia).
  done.
Qed.

(** Ana clocks in on 02-01-2024 and on 01-02-2024. *)
Definition ana_two_days : db :=
  let s1 := (register_punch (Some 2) None (fmt_dmy (mkDate 2024 1 2)) (fmt_hms (mkTime 8 0 0)) ana_db).2 in
  (register_punch (Some 2) None (fmt_dmy (mkDate 2024 2 1)) (fmt_hms (mkTime 8 0 0)) s1).2.

Lemma ana_two_days_reachable : reachable demo_hash ana_two_days.
Proof.
  eapply reach_step; [eapply reach_step; [apply ana_db_reachable|]|];
    apply step_punch; unfold valid_date; simpl; lia.
Qed.

Lemma history_by_day_of_month_witness :
  date_lt (mkDate 2024 1 2) (mkDate 2024 2 1) /\
  exists d1 d2, valid_date d1 /\ valid_date d2 /\
    data (mkPonto 1 2 "02-01-2024" entrada "08:00:00" "") = fmt_dmy d1 /\
    data (mkPonto 2 2 "01-02-2024" entrada "08:00:00" "") = fmt_dmy d2 /\ day d2 <= day d1.
Proof.
  split; [unfold date_lt; simpl; lia|].
  apply (history_by_day_of_month demo_hash (Some 1) None ana_two_days
           [(mkPonto 1 2 "02-01-2024" entrada "08:00:00" "", Some "Ana");
            (mkPonto 2 2 "01-02-2024" entrada "08:00:00" "", Some "Ana")]
           "Todos os Funcionários" [ana] 0 1
           (mkPonto 1 2 "02-01-2024" entrada "08:00:00" "", Some "Ana")
           (mkPonto 2 2 "01-02-2024" entrada "08:00:00" "", Some "Ana")).
  - apply ana_two_days_reachable.
  - vm_compute. reflexivity.
  - lia.
  - reflexivity.
  - reflexivity.
Defined.
