(* ===== verification/Reports.v ===== *)
(** * The report queries and the [reports] handler

    [reports] (routes.py 300-388) converts its two date bounds with
    [convert_date_for_db], then runs either the per-employee detailed
    listing and summary (when [employee_id] is given) or the summary of
    every employee.  The summary query is a LEFT JOIN of [usuarios] with
    the punches whose date is BETWEEN the bounds, grouped by user, with
    [COUNT(DISTINCT CASE WHEN tipo = 'entrada' THEN data END)],
    [COUNT(DISTINCT data)] and [COUNT(p.id)].  The detailed rows are
    grouped by date into a dict ([punches_by_date], lines 373-378).  The
    same queries are run by [export_reports] (lines 476-522).
    [employee_id] is taken as the number SQLite compares with [u.id]. *)

From Stdlib Require Import String Ascii Lia ZifyNat.
From stdpp Require Import base list strings sorting.
From S2P Require Import Prelude Dates Schema Sequencer Users System.

Record summary_row := mkSummary {
  s_nome : string; s_funcao : string;
  dias_trabalhados : nat; dias_com_registro : nat; total_pontos : nat }.

Record detail_row := mkDetail {
  d_data : string; d_tipo : tipo; d_hora : string; d_observacao : string;
  d_nome : string; d_funcao : string }.

(** The punches of [uid] with [p.data BETWEEN lo AND hi]. *)
Definition punches_in_range (lo hi : string) (uid : nat) (s : db) : list ponto :=
  filter (fun p => usuario_id p = uid /\ sql_between (data p) lo hi = true) (pontos s).

(** One group of the summary query: [u.nome, u.funcao] and the counts. *)
Definition summary_row_of (lo hi : string) (s : db) (u : usuario) : summary_row :=
  let ps := punches_in_range lo hi (u_id u) s in
  mkSummary (nome u) (funcao u)
    (count_distinct (map data (filter (fun p => p_tipo p = entrada) ps)))
    (count_distinct (map data ps))
    (length ps).

(** [... WHERE u.perfil = 'colaborador' GROUP BY u.id ... ORDER BY u.nome] *)
Definition summary_all (lo hi : string) (s : db) : list summary_row :=
  order_by (fun r => [s_nome r])
    (map (summary_row_of lo hi s) (filter (fun u => u_perfil u = colaborador) (usuarios s))).

(** [... WHERE u.id = ? GROUP BY u.id ...] *)
Definition summary_one (lo hi : string) (eid : nat) (s : db) : list summary_row :=
  map (summary_row_of lo hi s) (filter (fun u => u_id u = eid) (usuarios s)).

(** [SELECT p.data, p.tipo, p.hora, p.observacao, u.nome, u.funcao FROM
    pontos p JOIN usuarios u ON p.usuario_id = u.id WHERE p.usuario_id = ?
    AND p.data BETWEEN ? AND ? ORDER BY p.data, p.hora] *)
Definition detailed (lo hi : string) (eid : nat) (s : db) : list detail_row :=
  order_by (fun r => [d_data r; d_hora r])
    (omap (fun p => u ← user_get (usuario_id p) s;
                    Some (mkDetail (data p) (p_tipo p) (hora p) (observacao p) (nome u) (funcao u)))
          (punches_in_range lo hi eid s)).

(** [if date not in punches_by_date: punches_by_date[date] = []] then
    [punches_by_date[date].append(punch)]: a dict keeps its keys in
    insertion order. *)
Fixpoint group_insert {A} (k : string) (r : A) (g : list (string * list A)) : list (string * list A) :=
  match g with
  | [] => [(k, [r])]
  | (k', rs) :: rest => if decide (k = k') then (k', rs ++ [r]) :: rest
                        else (k', rs) :: group_insert k r rest
  end.

Definition group_by {A} (key : A -> string) (rows : list A) : list (string * list A) :=
  fold_left (fun g r => group_insert (key r) r g) rows [].

Record report_view := mkView {
  rv_summary : list summary_row; rv_detailed : list detail_row;
  rv_by_date : list (string * list detail_row); rv_employee_name : option string }.

Inductive report_answer :=
  | ReportRedirect (r : response)
  | ReportPage (v : report_view).

(** [reports]: [today] is [get_brasilia_date()]; the bounds default to
    the first of the month and today, printed as DD-MM-YYYY. *)
Definition reports (sess : option nat) (today : date) (start_arg end_arg : option string)
    (employee_id : option nat) (s : db) : result report_answer :=
  match current_user sess s with
  | None => Ok (ReportRedirect (Redirect PLogin None))
  | Some u =>
    if decide (u_perfil u <> admin)
    then Ok (ReportRedirect (Redirect PEmployeeDashboard (Some FlashAccessDenied)))
    else
      let start_date := default (fmt_first_of_month today) start_arg in
      let end_date := default (fmt_dmy today) end_arg in
      lo <- convert_date_for_db start_date ;;
      hi <- convert_date_for_db end_date ;;
      match employee_id with
      | Some eid =>
          let det := detailed lo hi eid s in
          Ok (ReportPage (mkView (summary_one lo hi eid s) det (group_by d_data det)
                                 (d_nome <$> head det)))
      | None => Ok (ReportPage (mkView (summary_all lo hi s) [] [] None))
      end
  end.

(** The frequency column of [export_reports] (line 535),
    [round((dias_trabalhados / 30) * 100, 1) if dias_trabalhados > 0 else 0],
    in tenths of a percent.  The exact value is [100 d / 3] tenths, never
    half-way between two tenths, so rounding to nearest is
    [(200 d + 3) / 6]. *)
Definition frequency_tenths (dias : nat) : nat :=
  if Nat.ltb 0 dias then (200 * dias + 3) / 6 else 0.

(** ** Lemmas *)

Lemma sql_le_trans (a b c : string) : sql_le a b = true -> sql_le b c = true -> sql_le a c = true.
Proof.
  unfold sql_le.
  destruct (String.compare a b) eqn:Hab; try done;
  destruct (String.compare b c) eqn:Hbc; try done; intros _ _.
  - apply string_compare_Eq in Hab, Hbc. subst. by rewrite string_compare_refl.
  - apply string_compare_Eq in Hab. subst. by rewrite Hbc.
  - apply string_compare_Eq in Hbc. subst. by rewrite Hab.
  - by rewrite (string_compare_trans_Lt _ _ _ Hab Hbc).
Qed.

Lemma sql_between_inverted (x lo hi : string) :
  String.compare hi lo = Lt -> sql_between x lo hi = false.
Proof.
  intros H. unfold sql_between. destruct (sql_le lo x) eqn:H1; [|done].
  destruct (sql_le x hi) eqn:H2; [|done].
  pose proof (sql_le_trans _ _ _ H1 H2) as H3. unfold sql_le in H3.
  rewrite String.compare_antisym, H in H3. done.
Qed.

Lemma punches_in_range_nil (lo hi : string) (uid : nat) (s : db) :
  Forall (fun p => sql_between (data p) lo hi = false) (pontos s) ->
  punches_in_range lo hi uid s = [].
Proof.
  intros Hall. apply filter_Forall_nil. eapply Forall_impl; [exact Hall|].
  intros p Hp [_ Hb]. congruence.
Qed.

Lemma summary_row_of_nil (lo hi : string) (s : db) (u : usuario) :
  punches_in_range lo hi (u_id u) s = [] ->
  summary_row_of lo hi s u = mkSummary (nome u) (funcao u) 0 0 0.
Proof. unfold summary_row_of. by intros ->. Qed.

Lemma detailed_nil (lo hi : string) (eid : nat) (s : db) :
  punches_in_range lo hi eid s = [] -> detailed lo hi eid s = [].
Proof. unfold detailed. by intros ->. Qed.

(** Under the invariant, no stored punch is in an ISO range within one
    century. *)
Lemma stored_outside_iso_range (s : db) (a b : date) :
  punch_dates_dmy s -> valid_date a -> valid_date b -> year a / 100 = year b / 100 ->
  Forall (fun p => sql_between (data p) (fmt_iso a) (fmt_iso b) = false) (pontos s).
Proof.
  intros Hd Va Vb Hc. eapply Forall_impl; [exact Hd|].
  intros p (d & Vd & ->). by apply stored_date_outside_report_range.
Qed.

Definition zero_row (r : summary_row) : Prop :=
  dias_trabalhados r = 0 /\ dias_com_registro r = 0 /\ total_pontos r = 0.

Lemma summary_rows_zero (lo hi : string) (s : db) (us : list usuario) :
  (forall uid, punches_in_range lo hi uid s = []) ->
  Forall zero_row (map (summary_row_of lo hi s) us).
Proof.
  intros Hnil. apply Forall_forall. intros r (u & -> & _)%list_elem_of_fmap.
  rewrite summary_row_of_nil by apply Hnil. done.
Qed.

Lemma summary_all_zero (lo hi : string) (s : db) :
  (forall uid, punches_in_range lo hi uid s = []) -> Forall zero_row (summary_all lo hi s).
Proof.
  intros Hnil. unfold summary_all. rewrite (order_by_Permutation _ _).
  by apply summary_rows_zero.
Qed.

(** A report bound as [reports] receives it: absent (the default is
    used), or the valid date [a] typed as "DD-MM-YYYY" or sent as
    "YYYY-MM-DD" by an HTML date input. *)
Definition bound_form (arg : option string) (dflt a : date) : Prop :=
  match arg with None => a = dflt | Some x => x = fmt_dmy a \/ x = fmt_iso a end.

Lemma bound_form_convert (arg : option string) (dflt a : date) :
  bound_form arg dflt a -> convert_date_for_db (default (fmt_dmy dflt) arg) = Ok (fmt_iso a).
Proof.
  destruct arg as [x|]; simpl; [intros [-> | ->]|intros ->];
    auto using convert_fmt_dmy, convert_fmt_iso.
Qed.

(** When the converted bounds select no punch, the report page has no
    detailed row and only zero counts. *)
Lemma reports_empty (sess : option nat) (today : date) (sa ea : option string)
    (eid : option nat) (s : db) (lo hi : string) (v : report_view) :
  convert_date_for_db (default (fmt_first_of_month today) sa) = Ok lo ->
  convert_date_for_db (default (fmt_dmy today) ea) = Ok hi ->
  (forall uid, punches_in_range lo hi uid s = []) ->
  reports sess today sa ea eid s = Ok (ReportPage v) ->
  rv_detailed v = [] /\ Forall zero_row (rv_summary v).
Proof.
  intros Hlo Hhi Hnil. unfold reports. destruct (current_user sess s); [|done].
  case_decide; [done|]. cbv zeta. rewrite Hlo. cbn [result_bind]. rewrite Hhi.
  cbn [result_bind].
  destruct eid as [eid|]; intros [= <-]; cbn [rv_detailed rv_summary].
  - rewrite detailed_nil by apply Hnil. split; [done|]. by apply summary_rows_zero.
  - split; [done|]. by apply summary_all_zero.
Qed.

(** ** Properties *)

(** C5: the report page as an administrator opens it (default bounds:
    the first of the current month to today) counts no punch at all, for
    every employee and in the detailed listing, in every reachable state:
    the punches are stored as DD-MM-YYYY while the bounds are converted
    to YYYY-MM-DD, and SQLite compares them as text. *)
Theorem default_report_counts_nothing (h : string -> string) (sess : option nat)
    (today : date) (eid : option nat) (s : db) (v : report_view) :
  reachable h s -> valid_date today ->
  reports sess today None None eid s = Ok (ReportPage v) ->
  rv_detailed v = [] /\ Forall zero_row (rv_summary v).
Proof.
  intros Hr Vt. destruct (reachable_wf h s Hr) as (_ & _ & _ & Hd).
  set (a := mkDate (year today) (month today) 1).
  assert (valid_date a) as Va.
  { destruct Vt as (? & ? & ?). unfold valid_date, a; simpl. split_and!; lia. }
  apply (reports_empty _ _ _ _ _ _ (fmt_iso a) (fmt_iso today)).
  - exact (convert_fmt_dmy a).
  - exact (convert_fmt_dmy today).
  - intros uid. by apply punches_in_range_nil, stored_outside_iso_range.
Qed.

(** Ana has clocked in on 15-03-2024; the report of that day is empty. *)
Definition ana_punched : db :=
  (register_punch (Some 2) None (fmt_dmy (mkDate 2024 3 15)) (fmt_hms (mkTime 8 0 0)) ana_db).2.

Lemma ana_punched_reachable : reachable demo_hash ana_punched.
Proof.
  apply reach_step with ana_db; [apply ana_db_reachable|].
  apply step_punch. unfold valid_date; simpl; lia.
Qed.

Lemma default_report_counts_nothing_witness :
  day_types 2 "15-03-2024" ana_punched = [entrada] /\
  rv_detailed (mkView [mkSummary "Ana" "Caixa" 0 0 0] [] [] None) = [] /\
  Forall zero_row (rv_summary (mkView [mkSummary "Ana" "Caixa" 0 0 0] [] [] None)).
Proof.
  split; [vm_compute; reflexivity|].
  apply (default_report_counts_nothing demo_hash (Some 1) (mkDate 2024 3 15) None ana_punched).
  - apply ana_punched_reachable.
  - unfold valid_date; simpl; lia.
  - vm_compute. reflexivity.
Defined.

(** C14: with the bounds inverted (end before start as text) the summary
    is not empty: the LEFT JOIN keeps one row per employee, ordered by
    name, with every count zero. *)
Theorem summary_all_inverted_range (lo hi : string) (s : db) :
  String.compare hi lo = Lt ->
  summary_all lo hi s =
    order_by (fun r => [s_nome r])
      (map (fun u => mkSummary (nome u) (funcao u) 0 0 0)
           (filter (fun u => u_perfil u = colaborador) (usuarios s))).
Proof.
  intros Hinv. unfold summary_all. f_equal. apply map_ext. intros u.
  apply summary_row_of_nil, punches_in_range_nil, Forall_forall.
  intros p _. by apply sql_between_inverted.
Qed.

Lemma summary_all_inverted_range_witness :
  summary_all "2024-03-31" "2024-03-01" ana_punched = [mkSummary "Ana" "Caixa" 0 0 0].
Proof.
  rewrite summary_all_inverted_range by (vm_compute; reflexivity). vm_compute. reflexivity.
Defined.


(** C16: the frequency divides by a fixed 30 days whatever the range, so
    an employee who works more than 30 days of a longer range gets more
    than 100%. *)
Theorem frequency_over_100 (dias : nat) : 30 < dias -> 1000 < frequency_tenths dias.
Proof.
  intros H. unfold frequency_tenths. rewrite (proj2 (Nat.ltb_lt 0 dias)) by lia.
  lia.
Qed.

Lemma frequency_over_100_witness : 1000 < frequency_tenths 31.
Proof. apply frequency_over_100. lia. Defined.

(** ** Grouping by date *)

(** [punches_by_date.get(k)] *)
Fixpoint group_lookup {A} (k : string) (g : list (string * list A)) : option (list A) :=
  match g with
  | [] => None
  | (k', rs) :: rest => if decide (k = k') then Some rs else group_lookup k rest
  end.

Lemma group_lookup_insert {A} (k k' : string) (r : A) (g : list (string * list A)) :
  group_lookup k (group_insert k' r g) =
  if decide (k = k') then Some (default [] (group_lookup k g) ++ [r]) else group_lookup k g.
Proof.
  induction g as [|[k2 rs] g IH]; simpl; [by case_decide|].
  destruct (decide (k' = k2)) as [<-|Hne]; simpl; [by case_decide|].
  rewrite IH. destruct (decide (k = k2)) as [->|]; [|done].
  by rewrite decide_False.
Qed.

Lemma group_by_snoc {A} (key : A -> string) (rows : list A) (r : A) :
  group_by key (rows ++ [r]) = group_insert (key r) r (group_by key rows).
Proof. unfold group_by. by rewrite fold_left_app. Qed.

(** C17: grouping the detailed rows by date loses and reorders nothing:
    the group of a date is the list of the rows of that date in their
    order, and a date with no row has no group. *)
Theorem group_by_lookup {A} (key : A -> string) (rows : list A) (k : string) :
  group_lookup k (group_by key rows) =
  match filter (fun r => key r = k) rows with [] => None | rs => Some rs end.
Proof.
  induction rows as [|r rows IH] using rev_ind; [done|].
  rewrite group_by_snoc, group_lookup_insert, filter_app, IH.
  destruct (decide (k = key r)) as [E|E].
  - rewrite filter_cons_True, filter_nil by done.
    by destruct (filter _ rows).
  - rewrite filter_cons_False, filter_nil, app_nil_r by done.
    by destruct (filter _ rows).
Qed.

(** C8: a report counts no punch in any reachable state whatever bounds
    the administrator gives, as long as both are valid dates of one
    century, each typed "DD-MM-YYYY", sent "YYYY-MM-DD" by a date input
    or left to its default: the stored "DD-MM-YYYY" dates never fall
    between the converted "YYYY-MM-DD" bounds. *)
Theorem report_counts_nothing (h : string -> string) (sess : option nat) (today : date)
    (sa ea : option string) (eid : option nat) (s : db) (v : report_view) (a b : date) :
  reachable h s -> valid_date a -> valid_date b -> year a / 100 = year b / 100 ->
  bound_form sa (mkDate (year today) (month today) 1) a -> bound_form ea today b ->
  reports sess today sa ea eid s = Ok (ReportPage v) ->
  rv_detailed v = [] /\ Forall zero_row (rv_summary v).
Proof.
  intros Hr Va Vb Hc Ha Hb. destruct (reachable_wf h s Hr) as (_ & _ & _ & Hd).
  apply (reports_empty _ _ _ _ _ _ (fmt_iso a) (fmt_iso b)).
  - exact (bound_form_convert _ _ _ Ha).
  - exact (bound_form_convert _ _ _ Hb).
  - intros uid. by apply punches_in_range_nil, stored_outside_iso_range.
Qed.

Lemma report_counts_nothing_witness :
  day_types 2 "15-03-2024" ana_punched = [entrada] /\
  rv_detailed (mkView [mkSummary "Ana" "Caixa" 0 0 0] [] [] None) = [] /\
  Forall zero_row (rv_summary (mkView [mkSummary "Ana" "Caixa" 0 0 0] [] [] None)).
Proof.
  split; [vm_compute; reflexivity|].
  apply (report_counts_nothing demo_hash (Some 1) (mkDate 2024 3 15)
           (Some "2024-03-01") (Some "31-03-2024") (Some 2) ana_punched _
           (mkDate 2024 3 1) (mkDate 2024 3 31)).
  - apply ana_punched_reachable.
  - unfold valid_date; simpl; lia.
  - unfold valid_date; simpl; lia.
  - reflexivity.
  - right. vm_compute. reflexivity.
  - left. vm_compute. reflexivity.
  - vm_compute. reflexivity.
Defined.
