(* ===== verification/Exports.v ===== *)
(** * Export tables and the printable report

    The core builds the rows the export adapters serialise: [export_history]
    (routes.py 390-448) and [export_reports] (450-548) select and order the
    punches or the summary, and turn each into display cells (type names,
    [hora[:5]], [observacao or '-'], the frequency); [export_detailed_excel]
    and [export_detailed_pdf] (666-786) reformat the date of each group;
    [print_report] (788-849) groups an employee's punches by date and by
    type.  What the adapters do with the rows (pandas, openpyxl,
    reportlab) is not modelled: an export is the format, the file name and
    the rows. *)

From Stdlib Require Import String Ascii Lia ZifyNat.
From stdpp Require Import base list strings sorting pretty.
From S2P Require Import Prelude Dates Schema Reports.


(** The values stored in [pontos.tipo], and the labels of the exports. *)
Definition tipo_value (t : tipo) : string :=
  match t with
  | entrada => "entrada" | saida_almoco => "saida_almoco"
  | volta_almoco => "volta_almoco" | saida_final => "saida_final"
  end.

Definition tipo_label (t : tipo) : string :=
  match t with
  | entrada => "Entrada" | saida_almoco => "Saída Almoço"
  | volta_almoco => "Volta Almoço" | saida_final => "Saída Final"
  end.

(** [s[:n]] *)
Definition py_prefix (n : nat) (s : string) : string := substring 0 n s.

(** [x or d] on a string. *)
Definition py_or (x d : string) : string := if py_truthy x then x else d.

(** [s.lower()] on ASCII letters. *)
Definition ascii_lower (c : ascii) : ascii :=
  let n := nat_of_ascii c in if (65 <=? n) && (n <=? 90) then ascii_of_nat (n + 32) else c.
Fixpoint py_lower (s : string) : string :=
  match s with EmptyString => EmptyString | String c r => String (ascii_lower c) (py_lower r) end.

(** [s.replace(' ', '_')] *)
Fixpoint replace_spaces (s : string) : string :=
  match s with
  | EmptyString => EmptyString
  | String c r => String (if decide (c = " "%char) then "_"%char else c) (replace_spaces r)
  end.

Inductive export_format := Csv | Excel | Pdf.

Inductive export_answer :=
  | ExportRedirect (r : response)
  | ExportTable (f : export_format) (filename : string) (rows : list (list string))
  | ExportSummary (f : export_format) (filename : string) (rows : list (summary_row * nat))
  | ExportDetailed (f : export_format) (filename : string)
                   (groups : list (string * list (list string))).

(** ** [export_history] *)

Definition history_cells (p : ponto) (funcionario : string) : list string :=
  [data p; funcionario; tipo_label (p_tipo p); py_prefix 5 (hora p); py_or (observacao p) "-"].

(** [SELECT ... FROM pontos p JOIN usuarios u ... ORDER BY p.data DESC,
    p.hora DESC], keeping the users that satisfy [keep]. *)
Definition history_join (keep : usuario -> bool) (ps : list ponto) (s : db) : list (ponto * string) :=
  order_by_desc (fun r => [data r.1; hora r.1])
    (omap (fun p => u ← user_get (usuario_id p) s; if keep u then Some (p, nome u) else None) ps).

Definition export_history (sess : option nat) (format_arg : option string)
    (employee_id : option nat) (s : db) : export_answer :=
  match current_user sess s with
  | None => ExportRedirect (Redirect PLogin None)
  | Some u =>
    if decide (u_perfil u <> admin)
    then ExportRedirect (Redirect PEmployeeDashboard (Some FlashAccessDenied))
    else
      let format_type := py_lower (default "csv" format_arg) in
      let '(punches, prefix) :=
        match employee_id with
        | Some eid => (history_join (fun _ => true) (filter (fun p => usuario_id p = eid) (pontos s)) s,
                       "historico_funcionario_" +:+ pretty eid)
        | None => (history_join (fun v => bool_decide (u_perfil v = colaborador)) (pontos s) s,
                   "historico_todos_funcionarios")
        end in
      match punches with
      | [] => ExportRedirect (Redirect PPunchHistory (Some FlashNoData))
      | _ =>
        let rows := map (fun r => history_cells r.1 r.2) punches in
        if decide (format_type = "csv") then ExportTable Csv (prefix +:+ ".csv") rows
        else if decide (format_type = "excel") then ExportTable Excel (prefix +:+ ".xlsx") rows
        else if decide (format_type = "pdf") then ExportTable Pdf (prefix +:+ ".pdf") rows
        else ExportRedirect (Redirect PPunchHistory (Some FlashBadFormat))
      end
  end.

(** ** [export_reports] *)

(** [date.split('-')] then [f"{date_parts[2]}-{date_parts[1]}-{date_parts[0]}"],
    commented "Convert YYYY-MM-DD to DD-MM-YYYY" (lines 674-676). *)
Definition display_date (d : string) : result string :=
  let parts := py_split dash d in
  p2 <- py_index parts 2 ;; p1 <- py_index parts 1 ;; p0 <- py_index parts 0 ;;
  Ok (p2 +:+ String dash (p1 +:+ String dash p0)).

(** The rows of [export_detailed_excel], date groups in key order. *)
Definition detailed_excel_groups (groups : list (string * list detail_row)) (employee_name : string)
    : result (list (string * list (list string))) :=
  result_map (fun kv => fd <- display_date kv.1 ;;
                  Ok (fd, map (fun r => [fd; employee_name; d_funcao r; tipo_label (d_tipo r);
                                         py_prefix 5 (d_hora r); py_or (d_observacao r) ""]) kv.2))
       (order_by (fun kv => [kv.1]) groups).

(** The tables of [export_detailed_pdf], one per date group. *)
Definition detailed_pdf_groups (groups : list (string * list detail_row))
    : result (list (string * list (list string))) :=
  result_map (fun kv => fd <- display_date kv.1 ;;
                  Ok (fd, map (fun r => [tipo_label (d_tipo r); py_prefix 5 (d_hora r);
                                         py_or (d_observacao r) "-"]) kv.2))
       (order_by (fun kv => [kv.1]) groups).

Definition export_reports (sess : option nat) (today : date) (format_arg start_arg end_arg : option string)
    (employee_id : option nat) (s : db) : result export_answer :=
  match current_user sess s with
  | None => Ok (ExportRedirect (Redirect PLogin None))
  | Some u =>
    if decide (u_perfil u <> admin)
    then Ok (ExportRedirect (Redirect PEmployeeDashboard (Some FlashAccessDenied)))
    else
      let format_type := py_lower (default "csv" format_arg) in
      let start_date := default (fmt_first_of_month today) start_arg in
      let end_date := default (fmt_dmy today) end_arg in
      lo <- convert_date_for_db start_date ;;
      hi <- convert_date_for_db end_date ;;
      match employee_id with
      | Some eid =>
        match detailed lo hi eid s with
        | [] => Ok (ExportRedirect (Redirect PReports (Some FlashNoData)))
        | r0 :: _ as det =>
          let employee_name := d_nome r0 in
          let groups := group_by d_data det in
          let filename := replace_spaces ("relatorio_detalhado_" +:+ employee_name +:+ "_" +:+
                                          start_date +:+ "_a_" +:+ end_date) in
          if decide (format_type = "excel") then
            g <- detailed_excel_groups groups employee_name ;;
            Ok (ExportDetailed Excel (filename +:+ ".xlsx") g)
          else if decide (format_type = "pdf") then
            g <- detailed_pdf_groups groups ;;
            Ok (ExportDetailed Pdf (filename +:+ ".pdf") g)
          else Ok (ExportRedirect (Redirect PReports (Some FlashBadDetailedFormat)))
        end
      | None =>
        match summary_all lo hi s with
        | [] => Ok (ExportRedirect (Redirect PReports (Some FlashNoData)))
        | report_data =>
          let rows := map (fun r => (r, frequency_tenths (dias_trabalhados r))) report_data in
          let filename := "relatorio_frequencia_" +:+ start_date +:+ "_a_" +:+ end_date in
          if decide (format_type = "csv") then Ok (ExportSummary Csv (filename +:+ ".csv") rows)
          else if decide (format_type = "excel") then Ok (ExportSummary Excel (filename +:+ ".xlsx") rows)
          else if decide (format_type = "pdf") then Ok (ExportSummary Pdf (filename +:+ ".pdf") rows)
          else Ok (ExportRedirect (Redirect PReports (Some FlashBadFormat)))
        end
      end
  end.

(** ** [print_report] *)

(** [punches_by_date[date][punch['tipo']] = {'hora': ..., 'observacao': ...}]:
    per date, a dict keyed by the type; a later punch of the same type
    replaces the earlier one. *)
Fixpoint tipo_dict_set (t : tipo) (v : string * string) (d : list (tipo * (string * string)))
    : list (tipo * (string * string)) :=
  match d with
  | [] => [(t, v)]
  | (t', v') :: rest => if decide (t = t') then (t', v) :: rest else (t', v') :: tipo_dict_set t v rest
  end.

Fixpoint date_dict_set (k : string) (t : tipo) (v : string * string)
    (g : list (string * list (tipo * (string * string)))) : list (string * list (tipo * (string * string))) :=
  match g with
  | [] => [(k, tipo_dict_set t v [])]
  | (k', d) :: rest => if decide (k = k') then (k', tipo_dict_set t v d) :: rest
                       else (k', d) :: date_dict_set k t v rest
  end.

Definition print_groups (ps : list ponto) : list (string * list (tipo * (string * string))) :=
  fold_left (fun g p => date_dict_set (data p) (p_tipo p)
                          (py_prefix 5 (hora p), py_or (observacao p) "") g) ps [].

Inductive print_answer :=
  | PrintRedirect (r : response)
  | PrintPage (nome funcao : string) (groups : list (string * list (tipo * (string * string)))).

Definition print_report (sess : option nat) (today : date) (start_arg end_arg : option string)
    (employee_id : option nat) (s : db) : result print_answer :=
  match current_user sess s with
  | None => Ok (PrintRedirect (Redirect PLogin None))
  | Some u =>
    if decide (u_perfil u <> admin)
    then Ok (PrintRedirect (Redirect PEmployeeDashboard (Some FlashAccessDenied)))
    else
      let start_date := default (fmt_first_of_month today) start_arg in
      let end_date := default (fmt_dmy today) end_arg in
      match employee_id with
      | None => Ok (PrintRedirect (Redirect PReports (Some FlashSelectEmployee)))
      | Some eid =>
        lo <- convert_date_for_db start_date ;;
        hi <- convert_date_for_db end_date ;;
        match user_get eid s with
        | None => Ok (PrintRedirect (Redirect PReports (Some FlashNotFound)))
        | Some e =>
          let ps := order_by (fun p => [data p; hora p]) (punches_in_range lo hi eid s) in
          Ok (PrintPage (nome e) (funcao e) (print_groups ps))
        end
      end
  end.

(** ** Properties *)

(** C24: [print_report] rejects an employee id with no user (after the
    bounds are converted): "Funcionário não encontrado!", back to the
    reports page. *)
Theorem print_report_unknown_employee (sess : option nat) (today : date) (eid : nat)
    (s : db) (u : usuario) :
  current_user sess s = Some u -> u_perfil u = admin -> user_get eid s = None ->
  print_report sess today None None (Some eid) s =
    Ok (PrintRedirect (Redirect PReports (Some FlashNotFound))).
Proof.
  intros Hu Ha Hn. unfold print_report. rewrite Hu.
  case_decide as Hd; [by rewrite Ha in Hd|]. cbv zeta. cbn [default].
  unfold fmt_first_of_month. rewrite !convert_fmt_dmy. cbn [result_bind]. by rewrite Hn.
Qed.

Lemma print_report_unknown_employee_witness :
  print_report (Some 1) (mkDate 2024 3 15) None None (Some 7) ana_db =
    Ok (PrintRedirect (Redirect PReports (Some FlashNotFound))).
Proof. apply (print_report_unknown_employee _ _ _ _ administrador); reflexivity. Defined.

(** C25: the step of the detailed exports commented "Convert YYYY-MM-DD
    to DD-MM-YYYY" receives the dates as the code stores them,
    DD-MM-YYYY, and so prints them as YYYY-MM-DD. *)
Theorem display_date_of_stored (d : date) : display_date (fmt_dmy d) = Ok (fmt_iso d).
Proof. unfold display_date. by rewrite fmt_dmy_split. Qed.

(** C26: the exports show the stored time [strftime('%H:%M:%S')] cut to
    its first five characters, which is exactly "HH:MM". *)
Theorem hora_display (t : clock_time) :
  py_prefix 5 (fmt_hms t) = (pad2 (hour t) +:+ String colon (pad2 (minute t))).
Proof. reflexivity. Qed.
